(** * Verification of the orchestration core of reqres-demo-app

    Shallow embedding of [src/src/config.ts], [src/src/api.ts] and the
    non-UI helpers of the React shell ([App.tsx], stored as
    [src/unnamed/part_000]): configuration warnings, the transport client
    [jsonRequest], the pagination clamp of [fetchTodos], the session store
    ([persistSession] / [loadStoredSession]), the session guard
    ([isSessionExpired] / [ensureActiveSession]), the toggle payload of
    [handleToggleTodo] and the page chosen after [handleDeleteTodo].

    JavaScript numbers that the claims touch are integers and are modelled
    as [Z]; JavaScript strings as [string]. *)

From Stdlib Require Import ZArith String Ascii List Bool Lia.
Import ListNotations.
Open Scope string_scope.
Open Scope Z_scope.
Set Warnings "-register-all".


(** ** JSON values, property access and truthiness *)

(** A value produced by [JSON.parse] (numbers restricted to integers).
    Objects keep their keys in insertion order. *)
Inductive json : Type :=
| JNull
| JBool (b : bool)
| JNum (n : Z)
| JStr (s : string)
| JArr (l : list json)
| JObj (fields : list (string * json)).

(** [assoc k l]: value of the first binding of [k] in [l]. *)
Fixpoint assoc {A} (k : string) (l : list (string * A)) : option A :=
  match l with
  | [] => None
  | (k', v) :: r => if String.eqb k k' then Some v else assoc k r
  end.

(** Optional-chained property access [v?.k]; [None] is [undefined].
    Strings, numbers, booleans, arrays and [null] have no own property
    named like the keys the code reads ([session], [token], [error], ...). *)
Definition get (v : json) (k : string) : option json :=
  match v with
  | JObj fs => assoc k fs
  | _ => None
  end.

Definition get_opt (v : option json) (k : string) : option json :=
  match v with
  | Some v' => get v' k
  | None => None
  end.

(** JavaScript truthiness of a (possibly [undefined]) value. *)
Definition truthy (v : option json) : bool :=
  match v with
  | None | Some JNull => false
  | Some (JBool b) => b
  | Some (JNum n) => negb (Z.eqb n 0)
  | Some (JStr s) => negb (String.eqb s "")
  | Some (JArr _) | Some (JObj _) => true
  end.

Definition str_truthy (s : string) : bool := negb (String.eqb s "").

(** [typeof v === 'object'] ([null], arrays and objects). *)
Definition is_object (v : json) : bool :=
  match v with
  | JNull | JArr _ | JObj _ => true
  | _ => false
  end.

(** ** Configuration ([config.ts]) *)

Record DemoConfig : Type := {
  baseUrl : string;
  projectId : option Z;          (** [number | null] *)
  publicProjectKey : string;
  manageProjectKey : string;
  collectionSlug : string
}.

(** Truthiness of [config.projectId] ([null] and [0] are falsy). *)
Definition projectId_truthy (p : option Z) : bool :=
  match p with
  | Some n => negb (Z.eqb n 0)
  | None => false
  end.

(** [configWarnings] of [App] (the [useMemo] body). *)
Definition configWarnings (config : DemoConfig) : list string :=
  (if negb (projectId_truthy config.(projectId)) then ["Add a project ID"] else [])
  ++ (if negb (str_truthy config.(publicProjectKey)) then ["Add the public project key"] else [])
  ++ (if negb (str_truthy config.(manageProjectKey)) then ["Add the manage project key"] else [])
  ++ (if negb (str_truthy config.(collectionSlug)) then ["Set a collection slug"] else []).

Definition configReady (config : DemoConfig) : bool :=
  Nat.eqb (length (configWarnings config)) 0.

(** ** Pagination clamp of [fetchTodos] *)

(** [Number(x) || d] for an optional numeric option: [undefined] gives
    [NaN] and [0] is falsy, both fall back to [d]. *)
Definition number_or (x : option Z) (d : Z) : Z :=
  match x with
  | Some n => if Z.eqb n 0 then d else n
  | None => d
  end.

(** [const page = Math.max(1, Number(opts.page) || 1)] *)
Definition fetch_page (opt_page : option Z) : Z := Z.max 1 (number_or opt_page 1).

(** [const rawLimit = Number(opts.limit) || 10;
     const limit = Math.min(Math.max(rawLimit, 1), 100)] *)
Definition fetch_limit (opt_limit : option Z) : Z :=
  Z.min (Z.max (number_or opt_limit 10) 1) 100.

(** [handlePageSizeChange]: the clamp the page-size control applies before
    it calls [refreshTodos]. *)
Definition page_size_change_clamp (nextLimit : Z) : Z := Z.min (Z.max nextLimit 1) 100.

(** ** Sessions and the session store ([App.tsx]) *)

Module Session.
(** [export type Session] of [api.ts]. *)
Record t : Type := {
  token : string;
  expiresAt : string;
  projectId : Z;
  email : string
}.
End Session.

(** The object [JSON.stringify] sees for a session. *)
Definition session_to_json (s : Session.t) : json :=
  JObj [("token", JStr s.(Session.token)); ("expiresAt", JStr s.(Session.expiresAt));
        ("projectId", JNum s.(Session.projectId)); ("email", JStr s.(Session.email))].

(** The text held under [SESSION_STORAGE_KEY], seen through [JSON.parse]:
    either the JSON text of a value (what [JSON.stringify] writes, and what
    [JSON.parse] reads back), or a text [JSON.parse] rejects (this includes
    the empty string). *)
Inductive stored_text : Type :=
| Text (v : json)
| Unparsable (raw : string).

(** [localStorage]: unavailable ([typeof localStorage === "undefined"]) or
    holding an optional item under [SESSION_STORAGE_KEY]. *)
Inductive storage : Type :=
| NoStorage
| LocalStorage (item : option stored_text).

(** [value.replace(/\/$/, "")]: drop one trailing slash. *)
Definition strip_trailing_slash (s : string) : string :=
  let n := String.length s in
  if Nat.ltb 0 n && String.eqb (substring (n - 1) 1 s) "/"
  then substring 0 (n - 1) s else s.

Section SessionStore.

(** [envConfig.baseUrl], the module-level configuration. *)
Variable envBaseUrl : string.

(** [normalizeBaseUrl] *)
Definition normalizeBaseUrl (value : string) : string :=
  let base := if str_truthy value then value
              else if str_truthy envBaseUrl then envBaseUrl else "" in
  strip_trailing_slash base.


(** Strict equality of a read property with a string / number. *)
Definition is_str (v : option json) (s : string) : bool :=
  match v with Some (JStr s') => String.eqb s' s | _ => false end.

Definition is_num (v : option json) (n : Z) : bool :=
  match v with Some (JNum m) => Z.eqb m n | _ => false end.

(** [a ?? null] *)
Definition or_null (v : option json) : json :=
  match v with None | Some JNull => JNull | Some w => w end.

(** The [stored] value built from the parsed item: the wrapped shape, the
    legacy bare-session shape, or [null]. *)
Definition stored_of (parsed : json) : option json :=
  if truthy (get parsed "session") then Some parsed
  else if truthy (get parsed "token") then
    Some (JObj [("session", parsed); ("baseUrl", JStr "");
                ("projectId", or_null (get parsed "projectId"))])
  else None.

(** [loadStoredSession]: the returned session and the storage afterwards.
    [JSON.parse] failures are caught ([catch { return null; }]). *)
Definition loadStoredSession (config : DemoConfig) (st : storage) : option json * storage :=
  match st with
  | NoStorage => (None, st)
  | LocalStorage None => (None, st)
  | LocalStorage (Some (Unparsable _)) => (None, st)
  | LocalStorage (Some (Text parsed)) =>
      let stored := stored_of parsed in
      if negb (truthy (get_opt (get_opt stored "session") "token")) then (None, st)
      else
        let expectedBaseUrl := normalizeBaseUrl config.(baseUrl) in
        let sb := get_opt stored "baseUrl" in
        if negb (truthy sb) || negb (is_str sb expectedBaseUrl)
        then (None, LocalStorage None)
        else
          let sp := get_opt stored "projectId" in
          match config.(projectId) with
          | Some cp =>
              if negb (Z.eqb cp 0) && truthy sp && negb (is_num sp cp)
              then (None, LocalStorage None)
              else (get_opt stored "session", st)
          | None => (get_opt stored "session", st)
          end
  end.

(** [hasStoredSessionToken] *)
Definition hasStoredSessionToken (config : DemoConfig) (st : storage) : bool * storage :=
  let (r, st') := loadStoredSession config st in
  (truthy (get_opt r "token"), st').

(** [clearSession]'s effect on the storage. *)
Definition clear_storage (st : storage) : storage :=
  match st with NoStorage => NoStorage | LocalStorage _ => LocalStorage None end.

End SessionStore.


(** ** The session guard *)

Section Guard.

(** [new Date(s).getTime()] ([None] is [NaN]), in milliseconds. *)
Variable date_getTime : string -> option Z.
Variable envBaseUrl : string.

(** [isSessionExpired] at the instant [now] ([Date.now()], milliseconds). *)
Definition isSessionExpired (session : option Session.t) (now : Z) : bool :=
  match session with
  | None => true
  | Some s =>
      if negb (str_truthy s.(Session.expiresAt)) then true
      else match date_getTime s.(Session.expiresAt) with
           | None => true
           | Some expiresAt => Z.leb expiresAt now
           end
  end.

(** Outcome of [ensureActiveSession]: the session, or the error it sets. *)
Inductive guard_result : Type :=
| GuardOk (s : Session.t)
| GuardFail (message : string).

(** [ensureActiveSession]: its result and the storage afterwards
    ([clearSession] removes the stored item). *)
Definition ensureActiveSession (config : DemoConfig) (st : storage) (now : Z)
    (activeSession : option Session.t) (missingMessage : string) : guard_result * storage :=
  match activeSession with
  | None => (GuardFail missingMessage, st)
  | Some s =>
      let (has, st1) := hasStoredSessionToken envBaseUrl config st in
      if negb has then (GuardFail "Access not active. Request access.", clear_storage st1)
      else if isSessionExpired (Some s) now
      then (GuardFail "Access expired. Request access again.", clear_storage st1)
      else (GuardOk s, st1)
  end.

End Guard.

(** *** Date strings of the form [YYYY-MM-DDTHH:mm:ss(.f+)Z]

    The instant such a string denotes, and what [Date] makes of it: the
    engine keeps the first three fraction digits (milliseconds) and drops
    the rest. Other formats are not modelled (they give [None]). *)

Definition digit (c : ascii) : option Z :=
  let n := nat_of_ascii c in
  if Nat.leb 48 n && Nat.leb n 57 then Some (Z.of_nat n - 48) else None.

(** Read exactly [k] digits. *)
Fixpoint read_digits (k : nat) (acc : Z) (l : list ascii) : option (Z * list ascii) :=
  match k with
  | O => Some (acc, l)
  | S k' =>
      match l with
      | c :: r => match digit c with
                  | Some d => read_digits k' (acc * 10 + d) r
                  | None => None
                  end
      | [] => None
      end
  end.

(** Read a maximal run of digits. *)
Fixpoint read_run (l : list ascii) : list Z * list ascii :=
  match l with
  | c :: r => match digit c with
              | Some d => let (ds, rest) := read_run r in (d :: ds, rest)
              | None => ([], l)
              end
  | [] => ([], [])
  end.

(** Value of the first [k] fraction digits, padded with zeros. *)
Definition frac_prefix (k : nat) (ds : list Z) : Z :=
  fold_left (fun acc d => acc * 10 + d) (firstn k (ds ++ repeat 0 k)) 0.

(** Days since 1970-01-01 of a proleptic Gregorian date. *)
Definition days_from_civil (y m d : Z) : Z :=
  let y' := if m <=? 2 then y - 1 else y in
  let era := y' / 400 in
  let yoe := y' - era * 400 in
  let mp := if 2 <? m then m - 3 else m + 9 in
  let doy := (153 * mp + 2) / 5 + d - 1 in
  let doe := yoe * 365 + yoe / 4 - yoe / 100 + doy in
  era * 146097 + doe - 719468.

(** Seconds since the epoch and the fraction digits of an ISO string. *)
Definition iso_parts (s : string) : option (Z * list Z) :=
  let l := list_ascii_of_string s in
  match read_digits 4 0 l with
  | Some (y, "-"%char :: l1) =>
  match read_digits 2 0 l1 with
  | Some (mo, "-"%char :: l2) =>
  match read_digits 2 0 l2 with
  | Some (d, "T"%char :: l3) =>
  match read_digits 2 0 l3 with
  | Some (h, ":"%char :: l4) =>
  match read_digits 2 0 l4 with
  | Some (mi, ":"%char :: l5) =>
  match read_digits 2 0 l5 with
  | Some (sec, l6) =>
      let (frac, l7) :=
        match l6 with
        | "."%char :: r => read_run r
        | _ => ([], l6)
        end in
      let frac_ok := match l6 with "."%char :: _ => negb (Nat.eqb (length frac) 0) | _ => true end in
      if frac_ok && (match l7 with ["Z"%char] => true | _ => false end)
         && (1 <=? mo) && (mo <=? 12) && (1 <=? d) && (d <=? 31)
         && (h <=? 23) && (mi <=? 59) && (sec <=? 59)
      then Some ((((days_from_civil y mo d * 24 + h) * 60 + mi) * 60 + sec), frac)
      else None
  | None => None
  end
  | _ => None end
  | _ => None end
  | _ => None end
  | _ => None end
  | _ => None end.


(** [new Date(s).getTime()] on such strings. *)
Definition iso_getTime (s : string) : option Z :=
  match iso_parts s with
  | Some (secs, frac) => Some (secs * 1000 + frac_prefix 3 frac)
  | None => None
  end.

(** ** Transport client: [jsonRequest] of [api.ts] *)

(** The [require] option. *)
Inductive credential : Type := CPublic | CManage | CSession.

(** [RequestOptions]; [token] and [body] are [undefined] when [None]. *)
Record RequestOptions : Type := {
  method : string;
  init_headers : list (string * string);
  token : option string;
  usePublicProjectKey : bool;
  useManageProjectKey : bool;
  body : option json;
  require : option credential
}.

(** The body handed to [fetch]: a string body passes through, anything
    else goes through [JSON.stringify]. *)
Inductive request_body : Type :=
| RawBody (s : string)
| JsonBody (v : json).

(** What [fetch(url, requestInit)] receives. *)
Record Request : Type := {
  url : string;
  req_method : string;
  headers : list (string * string);
  req_body : option request_body
}.

(** [await response.text()] classified by [JSON.parse]. *)
Inductive response_text : Type :=
| REmpty
| RJson (v : json)
| RText (s : string).

Record Response : Type := {
  status : Z;
  statusText : string;
  text : response_text
}.

(** [response.ok] *)
Definition ok (r : Response) : bool := (200 <=? r.(status)) && (r.(status) <=? 299).

(** [ApiError(message, status, details)]; the message is the value passed
    to the constructor. *)
Record ApiError : Type := {
  message : json;
  err_status : option Z;
  details : option json
}.

Definition api_error (msg : string) : ApiError :=
  {| message := JStr msg; err_status := None; details := None |}.

Inductive result : Type :=
| Ok (v : json)
| Err (e : ApiError).

(** [headers[k] = v] on a plain object: overwrite in place, else append. *)
Fixpoint hset (k v : string) (hs : list (string * string)) : list (string * string) :=
  match hs with
  | [] => [(k, v)]
  | (k', v') :: r => if String.eqb k k' then (k, v) :: r else (k', v') :: hset k v r
  end.

(** Object spread [{...hs, ...extra}]. *)
Definition hspread (hs extra : list (string * string)) : list (string * string) :=
  fold_left (fun acc kv => hset (fst kv) (snd kv) acc) extra hs.

(** [(a && a.error) || (a && a.message) || statusText || 'Request failed']
    with [a = typeof data === 'object' && data]. *)
Definition obj_field (data : json) (k : string) : option json :=
  if is_object data then get data k else None.

Definition error_message (data : json) (statusText : string) : json :=
  let e := obj_field data "error" in
  let m := obj_field data "message" in
  if truthy e then or_null e
  else if truthy m then or_null m
  else if str_truthy statusText then JStr statusText
  else JStr "Request failed".

(** [data] computed from the response text. *)
Definition response_data (t : response_text) : json :=
  match t with
  | REmpty => JNull
  | RJson v => v
  | RText s => JStr s
  end.

(** Everything [jsonRequest] does before [fetch]: the request to send, or
    the [ApiError] thrown first. *)
Definition prepare_request (config : DemoConfig) (path : string) (options : RequestOptions)
    : ApiError + Request :=
  let base := strip_trailing_slash
                (if str_truthy config.(baseUrl) then config.(baseUrl) else "https://reqres.in") in
  let u := base ++ (if String.prefix "/" path then path else "/" ++ path) in
  let h0 := hspread ([("Accept", "application/json")]
                     ++ (match options.(body) with
                         | Some _ => [("Content-Type", "application/json")]
                         | None => [] end))
                    options.(init_headers) in
  let sess :=
    match options.(require) with
    | Some CSession =>
        match options.(token) with
        | Some t => if str_truthy t then inr (hset "Authorization" ("Bearer " ++ t) h0)
                    else inl (api_error "Access is required for this action.")
        | None => inl (api_error "Access is required for this action.")
        end
    | _ => inr h0
    end in
  match sess with
  | inl e => inl e
  | inr h1 =>
  let pub :=
    match options.(require) with
    | Some CPublic =>
        if str_truthy config.(publicProjectKey)
        then inr (hset "x-api-key" config.(publicProjectKey) h1)
        else inl (api_error "Public access key is missing.")
    | _ => if options.(usePublicProjectKey) && str_truthy config.(publicProjectKey)
           then inr (hset "x-api-key" config.(publicProjectKey) h1) else inr h1
    end in
  match pub with
  | inl e => inl e
  | inr h2 =>
  let man :=
    match options.(require) with
    | Some CManage =>
        if str_truthy config.(manageProjectKey)
        then inr (hset "x-api-key" config.(manageProjectKey) h2)
        else inl (api_error "Management access key is missing.")
    | _ => if options.(useManageProjectKey) && str_truthy config.(manageProjectKey)
           then inr (hset "x-api-key" config.(manageProjectKey) h2) else inr h2
    end in
  match man with
  | inl e => inl e
  | inr h3 =>
      inr {| url := u; req_method := options.(method); headers := h3;
             req_body := match options.(body) with
                         | None | Some JNull => None
                         | Some (JStr s) => Some (RawBody s)
                         | Some v => Some (JsonBody v)
                         end |}
  end end end.

(** [jsonRequest] against a network [fetch]: the requests sent and the
    outcome. *)
Definition jsonRequest (config : DemoConfig) (path : string) (options : RequestOptions)
    (fetch : Request -> Response) : list Request * result :=
  match prepare_request config path options with
  | inl e => ([], Err e)
  | inr req =>
      let response := fetch req in
      let data := response_data response.(text) in
      if negb (ok response)
      then ([req], Err {| message := error_message data response.(statusText);
                          err_status := Some response.(status);
                          details := Some data |})
      else ([req], Ok (match data with JNull => JObj [] | _ => data end))
  end.

(** ** Records, toggling and pagination state ([App.tsx]) *)

(** [TodoPayload] *)
Record TodoPayload : Type := {
  title : string;
  notes : string;
  completed : bool
}.

Definition payload_to_json (p : TodoPayload) : json :=
  JObj [("title", JStr p.(title)); ("notes", JStr p.(notes)); ("completed", JBool p.(completed))].

(** [TodoItem]; [data] is the record's field object as the server sent it. *)
Record TodoItem : Type := {
  id : string;
  data : json;
  created_at : string;
  updated_at : string;
  app_user_id : option string
}.

(** ASCII [toLowerCase]. *)
Definition lower_ascii (c : ascii) : ascii :=
  let n := nat_of_ascii c in
  if Nat.leb 65 n && Nat.leb n 90 then ascii_of_nat (n + 32) else c.

Fixpoint toLowerCase (s : string) : string :=
  match s with
  | EmptyString => EmptyString
  | String c r => String (lower_ascii c) (toLowerCase r)
  end.

(** [normalizeTodo] *)
Definition normalizeTodo (d : option json) : TodoPayload :=
  let source := match d with None | Some JNull => JObj [] | Some v => v end in
  let completedValue := get source "completed" in
  {| title := match get source "title" with Some (JStr s) => s | _ => "" end;
     notes := match get source "notes" with Some (JStr s) => s | _ => "" end;
     completed := match completedValue with
                  | Some (JBool b) => b
                  | Some (JStr s) => String.eqb (toLowerCase s) "true"
                  | v => truthy v
                  end |}.

(** The [payload] of [handleToggleTodo]. *)
Definition toggle_payload (todo : TodoItem) : TodoPayload :=
  let current := normalizeTodo (Some todo.(data)) in
  {| title := current.(title); notes := current.(notes); completed := negb current.(completed) |}.

(** The JSON body [updateTodo] sends for it: [{ data: todo }]. *)
Definition update_body (p : TodoPayload) : json := JObj [("data", payload_to_json p)].

(** [prev.map((item) => (item.id === todo.id ? updated : item))] *)
Definition replace_by_id (todos : list TodoItem) (tid : string) (updated : TodoItem) : list TodoItem :=
  map (fun item => if String.eqb item.(id) tid then updated else item) todos.

(** [PaginationMeta] *)
Record PaginationMeta : Type := {
  page : Z;
  limit : Z;
  total : Z;
  pages : Z
}.

(** The pagination-related state of [App]. *)
Record PageState : Type := {
  todoMeta : option PaginationMeta;
  todoPage : Z;
  todoPageSize : Z;
  todos : list TodoItem
}.

Definition DEFAULT_PAGE_SIZE : Z := 10.

(** [const currentPage = todoMeta?.page || todoPage] *)
Definition currentPage (st : PageState) : Z :=
  match st.(todoMeta) with
  | Some m => if Z.eqb m.(page) 0 then st.(todoPage) else m.(page)
  | None => st.(todoPage)
  end.

(** [nextPage] of [handleDeleteTodo]:
    [todoMeta && todos.length <= 1 && todoMeta.page > 1
       ? todoMeta.page - 1 : todoMeta?.page || 1] *)
Definition delete_next_page (st : PageState) : Z :=
  match st.(todoMeta) with
  | Some m =>
      if Nat.leb (length st.(todos)) 1 && (1 <? m.(page)) then m.(page) - 1
      else if Z.eqb m.(page) 0 then 1 else m.(page)
  | None => 1
  end.

(** [handlePageChange]'s [nextPage]. *)
Definition page_change_next (st : PageState) (prev : bool) : Z :=
  let current := currentPage st in
  let totalPages := match st.(todoMeta) with
                    | Some m => if Z.eqb m.(pages) 0 then 1 else m.(pages)
                    | None => 1 end in
  if prev then Z.max 1 (current - 1) else Z.min totalPages (current + 1).

Definition initial_page_state : PageState :=
  {| todoMeta := None; todoPage := 1; todoPageSize := DEFAULT_PAGE_SIZE; todos := [] |}.

(** The writes of [App] to [todoMeta], [todoPage], [todoPageSize] and
    [todos]. A failed request writes none of them. The server reports
    pages numbered from 1 (the [PageState] of the spec); [fetchTodos]
    itself only ever falls back to a clamped page, which is [>= 1]. *)
Inductive page_step : PageState -> PageState -> Prop :=
| step_clearSession st :
    page_step st initial_page_state
| step_reset_page st :            (** session load / verify: [setTodoPage(1); setTodoMeta(null)] *)
    page_step st {| todoMeta := None; todoPage := 1;
                    todoPageSize := st.(todoPageSize); todos := st.(todos) |}
| step_refresh_ok st items m :    (** [refreshTodos] success *)
    1 <= m.(page) ->
    page_step st {| todoMeta := Some m; todoPage := m.(page);
                    todoPageSize := m.(limit); todos := items |}
| step_page_change st prev :      (** [handlePageChange] *)
    page_step st {| todoMeta := st.(todoMeta); todoPage := page_change_next st prev;
                    todoPageSize := st.(todoPageSize); todos := st.(todos) |}
| step_page_size st n :           (** [handlePageSizeChange] *)
    page_step st {| todoMeta := st.(todoMeta); todoPage := 1;
                    todoPageSize := page_size_change_clamp n; todos := st.(todos) |}
| step_create st :                (** [handleCreateTodo]: [setTodoPage(1)] *)
    page_step st {| todoMeta := st.(todoMeta); todoPage := 1;
                    todoPageSize := st.(todoPageSize); todos := st.(todos) |}
| step_replace st tid updated :   (** [handleUpdateTodo] / [handleToggleTodo] success *)
    page_step st {| todoMeta := st.(todoMeta); todoPage := st.(todoPage);
                    todoPageSize := st.(todoPageSize); todos := replace_by_id st.(todos) tid updated |}.

Inductive reachable : PageState -> Prop :=
| reach_init : reachable initial_page_state
| reach_step st st' : reachable st -> page_step st st' -> reachable st'.

(** ** Strings of the JavaScript runtime

    A JavaScript string is represented by its UTF-8 encoding. *)

Section JsString.
Local Open Scope nat_scope.

(** Characters [encodeURIComponent] leaves alone:
    [A-Z a-z 0-9 - _ . ! ~ * ' ( )]. *)
Definition uri_unreserved (c : ascii) : bool :=
  let n := nat_of_ascii c in
  (Nat.leb 65 n && Nat.leb n 90) || (Nat.leb 97 n && Nat.leb n 122)
  || (Nat.leb 48 n && Nat.leb n 57)
  || existsb (Nat.eqb n) [45; 95; 46; 33; 126; 42; 39; 40; 41].

Definition hex_digit (n : nat) : ascii :=
  if Nat.ltb n 10 then ascii_of_nat (48 + n) else ascii_of_nat (55 + n).

(** [encodeURIComponent]: every other byte of the UTF-8 encoding becomes
    [%XX] (upper-case hex). *)
Fixpoint encodeURIComponent (s : string) : string :=
  match s with
  | EmptyString => EmptyString
  | String c r =>
      if uri_unreserved c then String c (encodeURIComponent r)
      else let n := nat_of_ascii c in
           String "%" (String (hex_digit (n / 16)) (String (hex_digit (n mod 16))
             (encodeURIComponent r)))
  end.

(** Decimal digits of a natural number. *)
Fixpoint nat_digits (fuel n : nat) (acc : string) : string :=
  match fuel with
  | O => acc
  | S f => let acc' := String (ascii_of_nat (48 + n mod 10)) acc in
           if Nat.ltb n 10 then acc' else nat_digits f (n / 10) acc'
  end.

(** [String(n)] / template interpolation of an integer. *)
Definition Z_to_dec (z : Z) : string :=
  let n := Z.to_nat (Z.abs z) in
  ((if (z <? 0)%Z then "-" else "") ++ nat_digits (S n) n "")%string.

(** Length of the JavaScript white space or line terminator ([trim]'s set)
    encoded at the start of a byte list, [0] when there is none:
    U+0009-000D, U+0020, U+00A0, U+1680, U+2000-200A, U+2028, U+2029,
    U+202F, U+205F, U+3000, U+FEFF. *)
Definition ws_len (l : list ascii) : nat :=
  match l with
  | [] => 0
  | c1 :: r1 =>
    let b1 := nat_of_ascii c1 in
    if (Nat.leb 9 b1 && Nat.leb b1 13) || Nat.eqb b1 32 then 1 else
    match r1 with
    | [] => 0
    | c2 :: r2 =>
      let b2 := nat_of_ascii c2 in
      if Nat.eqb b1 194 && Nat.eqb b2 160 then 2 else
      match r2 with
      | [] => 0
      | c3 :: _ =>
        let b3 := nat_of_ascii c3 in
        if (Nat.eqb b1 225 && Nat.eqb b2 154 && Nat.eqb b3 128)
           || (Nat.eqb b1 226 && Nat.eqb b2 128
               && ((Nat.leb 128 b3 && Nat.leb b3 138) || Nat.eqb b3 168
                   || Nat.eqb b3 169 || Nat.eqb b3 175))
           || (Nat.eqb b1 226 && Nat.eqb b2 129 && Nat.eqb b3 159)
           || (Nat.eqb b1 227 && Nat.eqb b2 128 && Nat.eqb b3 128)
           || (Nat.eqb b1 239 && Nat.eqb b2 187 && Nat.eqb b3 191)
        then 3 else 0
      end
    end
  end.

(** Length of the white space character encoded at the end of a byte list,
    given reversed: the last one, two or three bytes when they encode one. *)
Definition ws_len_rev (rl : list ascii) : nat :=
  match rl with
  | [] => 0
  | c1 :: r1 =>
    if Nat.eqb (ws_len [c1]) 1 then 1 else
    match r1 with
    | [] => 0
    | c2 :: r2 =>
      if Nat.eqb (ws_len [c2; c1]) 2 then 2 else
      match r2 with
      | [] => 0
      | c3 :: _ => if Nat.eqb (ws_len [c3; c2; c1]) 3 then 3 else 0
      end
    end
  end.

Fixpoint strip_front (fuel : nat) (wl : list ascii -> nat) (l : list ascii) : list ascii :=
  match fuel with
  | O => l
  | S f => match wl l with
           | O => l
           | k => strip_front f wl (skipn k l)
           end
  end.

(** [String.prototype.trim] *)
Definition trim (s : string) : string :=
  let l := list_ascii_of_string s in
  let l1 := strip_front (length l) ws_len l in
  string_of_list_ascii (rev (strip_front (length l1) ws_len_rev (rev l1))).

End JsString.

(** ** Environment configuration ([config.ts]) *)

(** The [import.meta.env] entries [config.ts] reads; [None] is [undefined]. *)
Record ImportMetaEnv : Type := {
  VITE_REQRES_BASE_URL : option string;
  VITE_REQRES_PROJECT_ID : option string;
  VITE_REQRES_PUBLIC_KEY : option string;
  VITE_REQRES_MANAGE_KEY : option string;
  VITE_REQRES_COLLECTION_SLUG : option string;
  DEV : bool
}.

(** [sanitizeBaseUrl] *)
Definition sanitizeBaseUrl (value : option string) : string :=
  match value with
  | Some v => if str_truthy v then trim (strip_trailing_slash v) else ""
  | None => ""
  end.

(** [v || d] for an optional string. *)
Definition env_or (v : option string) (d : string) : string :=
  match v with
  | Some s => if str_truthy s then s else d
  | None => d
  end.

Section EnvConfig.

(** [Number(value)] when it is finite, [None] when it is not. *)
Variable js_Number : string -> option Z.

(** [numberFromEnv] *)
Definition numberFromEnv (value : option string) : option Z :=
  match value with
  | Some v => if str_truthy v then js_Number v else None
  | None => None
  end.

(** [envConfig], which [loadConfig] returns. *)
Definition envConfig (env : ImportMetaEnv) : DemoConfig :=
  {| baseUrl := let b := sanitizeBaseUrl env.(VITE_REQRES_BASE_URL) in
                if str_truthy b then b
                else if env.(DEV) then "http://localhost:8000" else "https://reqres.in";
     projectId := numberFromEnv env.(VITE_REQRES_PROJECT_ID);
     publicProjectKey := trim (env_or env.(VITE_REQRES_PUBLIC_KEY) "");
     manageProjectKey := trim (env_or env.(VITE_REQRES_MANAGE_KEY) "");
     collectionSlug := trim (env_or env.(VITE_REQRES_COLLECTION_SLUG) "todos") |}.

End EnvConfig.

(** ** The endpoint wrappers of [api.ts] *)

(** How an [async] wrapper ends: with its value, with the [ApiError] it
    throws, or with the [TypeError] a property read on [undefined] throws. *)
Inductive outcome (A : Type) : Type :=
| Done (a : A)
| Thrown (e : ApiError)
| TypeError.

Arguments Done {A} a.
Arguments Thrown {A} e.
Arguments TypeError {A}.

(** [const res = await jsonRequest(...)] followed by the rest of the
    wrapper: the requests sent and the outcome. *)
Definition and_then {A} (r : list Request * result) (k : json -> outcome A)
    : list Request * outcome A :=
  match r with
  | (sent, Ok v) => (sent, k v)
  | (sent, Err e) => (sent, Thrown e)
  end.

(** [throw new ApiError(msg)] before any request. *)
Definition throw_unsent {A} (msg : string) : list Request * outcome A :=
  ([], Thrown (api_error msg)).

(** The [base] of [jsonRequest]:
    [(config.baseUrl || 'https://reqres.in').replace(/\/$/, '')]. *)
Definition api_base (config : DemoConfig) : string :=
  strip_trailing_slash
    (if str_truthy config.(baseUrl) then config.(baseUrl) else "https://reqres.in").

(** Options [{ method, token: sessionToken, require: 'session', body }]
    (no [headers], no key flags). *)
Definition session_options (m : string) (sessionToken : string) (b : option json)
    : RequestOptions :=
  {| method := m; init_headers := []; token := Some sessionToken;
     usePublicProjectKey := false; useManageProjectKey := false;
     body := b; require := Some CSession |}.

(** Options [{ method, body, require }] of the project-key calls. *)
Definition key_options (m : string) (b : option json) (c : credential) : RequestOptions :=
  {| method := m; init_headers := []; token := None;
     usePublicProjectKey := false; useManageProjectKey := false;
     body := b; require := Some c |}.

(** [a ?? d] *)
Definition nullish_or (v : option json) (d : json) : json :=
  match v with None | Some JNull => d | Some w => w end.

(** [x.length] of a string, in UTF-16 code units: one per character, two
    for a character outside the Basic Multilingual Plane (a four-byte
    UTF-8 sequence). *)
Fixpoint utf16_length (s : string) : nat :=
  match s with
  | EmptyString => 0
  | String c r =>
      let b := nat_of_ascii c in
      (if Nat.eqb (b / 64) 2 then 0 else if Nat.leb 240 b then 2 else 1)%nat
      + utf16_length r
  end.

(** [v.length]: the length of an array or a string, an object's own
    [length] key, [undefined] for the other values. *)
Definition js_length (v : json) : option json :=
  match v with
  | JArr l => Some (JNum (Z.of_nat (length l)))
  | JStr s => Some (JNum (Z.of_nat (utf16_length s)))
  | JObj fs => assoc "length" fs
  | _ => None
  end.

(** [Math.ceil(a / b)] for [b > 0]. *)
Definition ceil_div (a b : Z) : Z := - ((- a) / b).

(** The [meta] object [fetchTodos] returns. [mo_total] is [undefined]
    when [res.data] has no [length]; [mo_pages] is [None] where JavaScript
    would coerce a [length] that is neither a number nor falsy (held in
    an object's own [length] key), which is not followed here. *)
Record MetaOut : Type := {
  mo_page : json;
  mo_limit : json;
  mo_total : option json;
  mo_pages : option json
}.

(** [PaginatedTodos] *)
Record PaginatedTodos : Type := {
  pt_data : json;
  pt_meta : MetaOut
}.

(** [Math.max(1, Math.ceil((len || 1) / limit))] *)
Definition fallback_pages (len : option json) (limit : Z) : option Z :=
  match len with
  | Some (JNum n) => Some (Z.max 1 (ceil_div (if Z.eqb n 0 then 1 else n) limit))
  | v => if truthy v then None else Some 1
  end.

(** What [fetchTodos] builds from the response [res]. *)
Definition fetchTodos_result (page limit : Z) (res : json) : PaginatedTodos :=
  let items := if truthy (get res "data") then nullish_or (get res "data") JNull else JArr [] in
  let fb_total := js_length items in
  let fb_pages := option_map JNum (fallback_pages fb_total limit) in
  {| pt_data := items;
     pt_meta :=
       if truthy (get res "meta") then
         let m := nullish_or (get res "meta") JNull in
         {| mo_page := nullish_or (get m "page") (JNum page);
            mo_limit := nullish_or (get m "limit") (JNum limit);
            mo_total := match get m "total" with
                        | None | Some JNull => fb_total
                        | Some v => Some v end;
            mo_pages := match get m "pages" with
                        | None | Some JNull => fb_pages
                        | Some v => Some v end |}
       else {| mo_page := JNum page; mo_limit := JNum limit;
               mo_total := fb_total; mo_pages := fb_pages |} |}.

(** [fetchTodos(config, sessionToken, { page, limit, order })] *)
Definition fetchTodos (config : DemoConfig) (sessionToken : string)
    (opt_page opt_limit : option Z) (opt_order : option string)
    (fetch : Request -> Response) : list Request * outcome PaginatedTodos :=
  if negb (str_truthy config.(collectionSlug))
  then throw_unsent "Task register is not configured."
  else
    let page := fetch_page opt_page in
    let limit := fetch_limit opt_limit in
    let order := match opt_order with
                 | Some o => if String.eqb o "asc" then "asc" else "desc"
                 | None => "desc" end in
    and_then
      (jsonRequest config
         ("/app/collections/" ++ encodeURIComponent config.(collectionSlug)
          ++ "/records?order=" ++ order ++ "&limit=" ++ Z_to_dec limit
          ++ "&page=" ++ Z_to_dec page)
         (session_options "GET" sessionToken None) fetch)
      (fun res => Done (fetchTodos_result page limit res)).

(** [createTodo]; the value is [res.data]. *)
Definition createTodo (config : DemoConfig) (sessionToken : string) (todo : TodoPayload)
    (fetch : Request -> Response) : list Request * outcome (option json) :=
  if negb (str_truthy config.(collectionSlug))
  then throw_unsent "Task register is not configured."
  else
    and_then
      (jsonRequest config
         ("/app/collections/" ++ encodeURIComponent config.(collectionSlug) ++ "/records")
         (session_options "POST" sessionToken (Some (JObj [("data", payload_to_json todo)])))
         fetch)
      (fun res => Done (get res "data")).

(** [updateTodo]; the value is [res.data]. *)
Definition updateTodo (config : DemoConfig) (sessionToken todoId : string) (todo : TodoPayload)
    (fetch : Request -> Response) : list Request * outcome (option json) :=
  if negb (str_truthy config.(collectionSlug))
  then throw_unsent "Task register is not configured."
  else
    and_then
      (jsonRequest config
         ("/app/collections/" ++ encodeURIComponent config.(collectionSlug)
          ++ "/records/" ++ encodeURIComponent todoId)
         (session_options "PUT" sessionToken (Some (JObj [("data", payload_to_json todo)])))
         fetch)
      (fun res => Done (get res "data")).

(** [deleteTodo] *)
Definition deleteTodo (config : DemoConfig) (sessionToken todoId : string)
    (fetch : Request -> Response) : list Request * outcome unit :=
  if negb (str_truthy config.(collectionSlug))
  then throw_unsent "Task register is not configured."
  else
    and_then
      (jsonRequest config
         ("/app/collections/" ++ encodeURIComponent config.(collectionSlug)
          ++ "/records/" ++ encodeURIComponent todoId)
         (session_options "DELETE" sessionToken None) fetch)
      (fun _ => Done tt).

(** [fetchProfile]; the value is [res.data]. *)
Definition fetchProfile (config : DemoConfig) (sessionToken : string)
    (fetch : Request -> Response) : list Request * outcome (option json) :=
  and_then
    (jsonRequest config "/api/app-users/me" (session_options "GET" sessionToken None) fetch)
    (fun res => Done (get res "data")).

(** [MagicLinkResult]; the optional fields are read as they come. *)
Record MagicLinkResult : Type := {
  sent : bool;
  ml_token : option json;
  magicLink : option json;
  expiresInMinutes : option json;
  note : option json;
  ml_message : option json
}.

(** [const payload = res?.data ?? res] ([res] is never nullish). *)
Definition magic_payload (res : json) : json := nullish_or (get res "data") res.

Definition magic_result (res : json) : MagicLinkResult :=
  let payload := magic_payload res in
  {| sent := truthy (Some (nullish_or (get payload "sent") (JBool true)));
     ml_token := get payload "token";
     magicLink := get payload "magicLink";
     expiresInMinutes := get payload "expires_in_minutes";
     note := get payload "note";
     ml_message := get payload "message" |}.

(** [requestMagicLink] *)
Definition requestMagicLink (config : DemoConfig) (email : string)
    (fetch : Request -> Response) : list Request * outcome MagicLinkResult :=
  match config.(projectId) with
  | None => throw_unsent "Project identifier is missing. Update configuration."
  | Some pid =>
      if Z.eqb pid 0 then throw_unsent "Project identifier is missing. Update configuration."
      else if negb (str_truthy config.(publicProjectKey))
      then throw_unsent "Public access key is missing. Access requests are disabled."
      else
        and_then
          (jsonRequest config "/api/app-users/login"
             (key_options "POST" (Some (JObj [("email", JStr email); ("project_id", JNum pid)]))
                CPublic) fetch)
          (fun res => Done (magic_result res))
  end.

(** The [Session] value [verifyMagicToken] returns, its fields read from
    [res.data] as they come. *)
Record VerifiedSession : Type := {
  vs_token : option json;
  vs_expiresAt : option json;
  vs_projectId : option json;
  vs_email : option json
}.

(** [verifyMagicToken]; [data.session_token] with [data] nullish is a
    [TypeError]. *)
Definition verifyMagicToken (config : DemoConfig) (token : string)
    (fetch : Request -> Response) : list Request * outcome VerifiedSession :=
  match config.(projectId) with
  | None => throw_unsent "Project identifier is missing. Update configuration."
  | Some pid =>
      if Z.eqb pid 0 then throw_unsent "Project identifier is missing. Update configuration."
      else
        and_then
          (jsonRequest config "/api/app-users/verify"
             (key_options "POST" (Some (JObj [("token", JStr token); ("project_id", JNum pid)]))
                CManage) fetch)
          (fun res => match get res "data" with
                      | None | Some JNull => TypeError
                      | Some d => Done {| vs_token := get d "session_token";
                                          vs_expiresAt := get d "expires_at";
                                          vs_projectId := get d "project_id";
                                          vs_email := get d "email" |}
                      end)
  end.

Section AppUserTotal.

(** [Number(v) || 0] for a [res.total] that is not a number. *)
Variable number_or_zero : option json -> Z.

(** [fetchAppUserTotal] *)
Definition fetchAppUserTotal (config : DemoConfig) (fetch : Request -> Response)
    : list Request * outcome Z :=
  match config.(projectId) with
  | None => throw_unsent "Project identifier is missing. Update configuration."
  | Some pid =>
      if Z.eqb pid 0 then throw_unsent "Project identifier is missing. Update configuration."
      else
        let canUsePublic := str_truthy config.(publicProjectKey) in
        let canUseManage := str_truthy config.(manageProjectKey) in
        if negb canUsePublic && negb canUseManage
        then throw_unsent "Access key is missing. Add a public or management key."
        else
          and_then
            (jsonRequest config ("/api/projects/" ++ Z_to_dec pid ++ "/app-users/total")
               (key_options "GET" None (if canUsePublic then CPublic else CManage)) fetch)
            (fun res => match get res "total" with
                        | Some (JNum n) => Done n
                        | v => Done (number_or_zero v)
                        end)
  end.

End AppUserTotal.

(** ** Handlers and derived state of [App] *)

(** What a handler does after [ensureActiveSession] let it through, up to
    and including its first API call: the error it sets without calling,
    or the requests and outcome of the call. *)
Inductive handler_step (A : Type) : Type :=
| Refused (message : string)
| Called (sent : list Request) (res : outcome A).

Arguments Refused {A} message.
Arguments Called {A} sent res.

Definition called {A} (r : list Request * outcome A) : handler_step A :=
  Called (fst r) (snd r).

(** [handleCreateTodo] after the session check: the title check, the
    trimmed [payload] and [createTodo]. *)
Definition handleCreateTodo_call (config : DemoConfig) (sessionToken : string)
    (draftTodo : TodoPayload) (fetch : Request -> Response) : handler_step (option json) :=
  if negb (str_truthy (trim draftTodo.(title)))
  then Refused "Enter a record title before saving."
  else
    let payload := {| title := trim draftTodo.(title); notes := trim draftTodo.(notes);
                      completed := draftTodo.(completed) |} in
    called (createTodo config sessionToken payload fetch).

(** The [path] [handleCreateTodo] logs for the request. *)
Definition handleCreateTodo_logged_path (config : DemoConfig) : string :=
  "/app/collections/" ++ encodeURIComponent config.(collectionSlug) ++ "/records".

(** [handleUpdateTodo] after the session check: [todoDrafts[todoId]], the
    title check, the trimmed [payload] and [updateTodo]. *)
Definition handleUpdateTodo_call (config : DemoConfig) (sessionToken : string)
    (todoDrafts : list (string * TodoPayload)) (todoId : string)
    (fetch : Request -> Response) : handler_step (option json) :=
  match assoc todoId todoDrafts with
  | None => Refused "Enter a record title before saving."
  | Some draft =>
      if negb (str_truthy (trim draft.(title)))
      then Refused "Enter a record title before saving."
      else
        let payload := {| title := trim draft.(title); notes := trim draft.(notes);
                          completed := draft.(completed) |} in
        called (updateTodo config sessionToken todoId payload fetch)
  end.


(** [handleRequestLink] up to its call: [ensureConfigReady], then
    [requestMagicLink] with the trimmed email. *)
Definition handleRequestLink_call (config : DemoConfig) (email : string)
    (fetch : Request -> Response) : handler_step MagicLinkResult :=
  if negb (configReady config) then Refused "System configuration is incomplete."
  else called (requestMagicLink config (trim email) fetch).

(** The todo filter. *)
Inductive filter_kind : Type := FAll | FActive | FCompleted.

(** [visibleTodos] *)
Definition visibleTodos (filter : filter_kind) (todos : list TodoItem) : list TodoItem :=
  match filter with
  | FAll => todos
  | _ =>
      let needsCompleted := match filter with FCompleted => true | _ => false end in
      List.filter (fun todo => Bool.eqb (normalizeTodo (Some todo.(data))).(completed)
                                        needsCompleted) todos
  end.

(** [completedCount] and [remainingCount] *)
Definition completedCount (todos : list TodoItem) : nat :=
  length (List.filter (fun todo => (normalizeTodo (Some todo.(data))).(completed)) todos).

Definition remainingCount (todos : list TodoItem) : Z :=
  Z.of_nat (length todos) - Z.of_nat (completedCount todos).











(** ** Concrete inputs used by the examples below *)

(** A complete configuration and a session issued under it. *)
Definition ex_config : DemoConfig :=
  {| baseUrl := "https://reqres.in"; projectId := Some 7;
     publicProjectKey := "pk"; manageProjectKey := "mk"; collectionSlug := "todos" |}.

Definition ex_session (expiresAt : string) : Session.t :=
  {| Session.token := "tok"; Session.expiresAt := expiresAt;
     Session.projectId := 7; Session.email := "a@b.com" |}.

Definition ex_fetch_ok (_ : Request) : Response :=
  {| status := 200; statusText := "OK"; text := RJson (JObj []) |}.

(** The requests [jsonRequest] sends: none or exactly [fetch]'s argument. *)
Definition sent_one (config : DemoConfig) (path : string) (options : RequestOptions)
    (fetch : Request -> Response) (P : Request -> Prop) : Prop :=
  exists req r, jsonRequest config path options fetch = ([req], r) /\ P req.

Definition fails_unsent (config : DemoConfig) (path : string) (options : RequestOptions)
    (fetch : Request -> Response) (msg : string) : Prop :=
  jsonRequest config path options fetch = ([], Err (api_error msg)).

Definition ex_todo : TodoItem :=
  {| id := "rec-1";
     data := JObj [("title", JStr "Buy milk"); ("notes", JStr ""); ("completed", JBool false);
                   ("priority", JNum 2)];
     created_at := "2026-10-19T00:00:00.000Z"; updated_at := "2026-10-19T00:00:00.000Z";
     app_user_id := Some "u-1" |}.

(** A page-3 view holding a single record, reached by a list response. *)
Definition ex_meta : PaginationMeta := {| page := 3; limit := 10; total := 21; pages := 3 |}.

Definition ex_page3 : PageState :=
  {| todoMeta := Some ex_meta; todoPage := page ex_meta; todoPageSize := limit ex_meta;
     todos := [ex_todo] |}.


Definition ex_session_opts : RequestOptions :=
  {| method := "GET"; init_headers := []; token := Some "tok";
     usePublicProjectKey := false; useManageProjectKey := false;
     body := None; require := Some CSession |}.

Definition ex_fetch_400 (_ : Request) : Response :=
  {| status := 400; statusText := "Bad Request"; text := RJson (JObj [("error", JStr "Invalid")]) |}.

(** A draft as the form holds it, with padding around the title. *)
Definition ex_draft : TodoPayload :=
  {| title := "  Buy milk "; notes := " 2 litres"; completed := false |}.

(** An environment whose collection slug is only blanks. *)
Definition ex_env : ImportMetaEnv :=
  {| VITE_REQRES_BASE_URL := None; VITE_REQRES_PROJECT_ID := Some "7";
     VITE_REQRES_PUBLIC_KEY := Some "pk"; VITE_REQRES_MANAGE_KEY := Some " ";
     VITE_REQRES_COLLECTION_SLUG := Some "   "; DEV := false |}.

(** * Properties *)

(** ** Configuration warnings *)

(** C9 (counterexample): a configuration whose project id is the number
    [0] (present: [numberFromEnv("0")] is [0]) with every key and the slug
    set still gets the warning "Add a project ID" and is not ready. *)
Lemma configWarnings_projectId_zero_cex :
  let c := {| baseUrl := "https://reqres.in"; projectId := Some 0;
              publicProjectKey := "pk"; manageProjectKey := "mk"; collectionSlug := "todos" |} in
  configWarnings c = ["Add a project ID"] /\ configReady c = false.
Proof. split; reflexivity. Qed.

Lemma warnings_shape (a b d e : bool) :
  let l := ((if a then ["Add a project ID"] else [])
           ++ (if b then ["Add the public project key"] else [])
           ++ (if d then ["Add the manage project key"] else [])
           ++ (if e then ["Set a collection slug"] else []))%list in
  (In "Add a project ID" l <-> a = true) /\
  (In "Add the public project key" l <-> b = true) /\
  (In "Add the manage project key" l <-> d = true) /\
  (In "Set a collection slug" l <-> e = true) /\
  NoDup l /\
  (Nat.eqb (length l) 0 = true <-> a = false /\ b = false /\ d = false /\ e = false).
Proof.
  destruct a, b, d, e; simpl;
  repeat split; intros;
  repeat match goal with
         | H : _ \/ _ |- _ => destruct H
         | H : _ /\ _ |- _ => destruct H
         end;
  try discriminate; try contradiction; try tauto;
  repeat constructor; simpl; intuition discriminate.
Qed.

Lemma str_truthy_false (s : string) : negb (str_truthy s) = true <-> s = "".
Proof.
  unfold str_truthy; rewrite Bool.negb_involutive; apply String.eqb_eq.
Qed.

Lemma projectId_missing (p : option Z) :
  negb (projectId_truthy p) = true <-> (p = None \/ p = Some 0).
Proof.
  destruct p as [n|]; simpl; [|intuition].
  destruct (Z.eqb_spec n 0); subst; simpl; intuition congruence.
Qed.

Lemma negb_true_false (x : bool) : negb x = false <-> ~ (negb x = true).
Proof. destruct x; simpl; intuition congruence. Qed.

(** C9 (amended): each missing item (project id [null] or [0], empty public
    key, empty manage key, empty slug) has its own warning, present exactly
    when that item is missing, no warning is repeated, and [configReady]
    holds exactly when none is missing. *)
Theorem configWarnings_individual (c : DemoConfig) :
  (In "Add a project ID" (configWarnings c) <-> (projectId c = None \/ projectId c = Some 0)) /\
  (In "Add the public project key" (configWarnings c) <-> publicProjectKey c = "") /\
  (In "Add the manage project key" (configWarnings c) <-> manageProjectKey c = "") /\
  (In "Set a collection slug" (configWarnings c) <-> collectionSlug c = "") /\
  NoDup (configWarnings c) /\
  (configReady c = true <->
     ~ (projectId c = None \/ projectId c = Some 0) /\ publicProjectKey c <> "" /\
     manageProjectKey c <> "" /\ collectionSlug c <> "").
Proof.
  unfold configReady, configWarnings.
  destruct (warnings_shape (negb (projectId_truthy (projectId c)))
              (negb (str_truthy (publicProjectKey c)))
              (negb (str_truthy (manageProjectKey c)))
              (negb (str_truthy (collectionSlug c))))
    as (H1 & H2 & H3 & H4 & H5 & H6).
  rewrite projectId_missing in H1; rewrite str_truthy_false in H2, H3, H4.
  do 5 (split; [tauto|]).
  split.
  - intros Hr; apply H6 in Hr; destruct Hr as (A & B & D & E).
    rewrite negb_true_false, projectId_missing in A.
    rewrite negb_true_false, str_truthy_false in B, D, E.
    tauto.
  - intros (A & B & D & E); apply H6.
    rewrite !negb_true_false, projectId_missing, !str_truthy_false. tauto.
Qed.

(** ** Pagination clamp *)

(** C2 (code defect): [fetchTodos] asked for [limit = 0] sends [limit=10]
    ([Number(0) || 10] takes the default), while its own
    [Math.max(rawLimit, 1)] and the page-size control's clamp send [1];
    [limit = 500] is clamped to [100] and [page = 0] becomes [1]. *)
Theorem fetchTodos_limit_zero_sends_default :
  fetch_limit (Some 0) = 10 /\ page_size_change_clamp 0 = 1 /\
  fetch_limit (Some (-5)) = 1 /\
  fetch_limit (Some 500) = 100 /\ fetch_page (Some 0) = 1.
Proof. repeat split. Qed.

(** ** Session expiry *)

(** ** Date strings: [Date] keeps the millisecond prefix of the instant *)







Section Expiry.

Variable date_getTime : string -> option Z.
Variable envBaseUrl : string.


End Expiry.


(** ** Session store *)

Lemma str_truthy_true (s : string) : s <> "" -> str_truthy s = true.
Proof.
  intros H; unfold str_truthy; destruct (String.eqb_spec s "") as [E|E];
  [contradiction | reflexivity].
Qed.



(** C4 (counterexample): a bare legacy session object with a token is not
    returned: it is wrapped with an empty base URL, which the base-URL
    check rejects, so the item is removed. *)
Lemma legacy_session_rejected_cex :
  loadStoredSession "https://reqres.in" ex_config
    (LocalStorage (Some (Text (session_to_json (ex_session "2026-10-19T00:00:00.000Z")))))
  = (None, LocalStorage None).
Proof. vm_compute. reflexivity. Qed.

(** C4 (amended): every stored value of the legacy shape (no truthy
    [session] field, a truthy [token]) is recognised but treated as stale:
    [loadStoredSession] returns nothing and removes it, whatever the
    configuration. *)
Theorem legacy_session_purged (envBaseUrl : string) (config : DemoConfig) (parsed : json)
    (Hsess : truthy (get parsed "session") = false)
    (Htok : truthy (get parsed "token") = true) :
  loadStoredSession envBaseUrl config (LocalStorage (Some (Text parsed)))
  = (None, LocalStorage None).
Proof.
  unfold loadStoredSession, stored_of. rewrite Hsess, Htok. cbn -[normalizeBaseUrl].
  rewrite Htok. reflexivity.
Qed.



(** ** Transport client *)

Lemma assoc_hset_same (k v : string) (hs : list (string * string)) :
  assoc k (hset k v hs) = Some v.
Proof.
  induction hs as [|[k' v'] r IH]; simpl.
  - rewrite String.eqb_refl; reflexivity.
  - destruct (String.eqb_spec k k') as [E|E]; simpl.
    + rewrite String.eqb_refl; reflexivity.
    + rewrite (proj2 (String.eqb_neq k k') E). exact IH.
Qed.

Lemma assoc_hset_other (k k' v : string) (hs : list (string * string)) :
  k <> k' -> assoc k (hset k' v hs) = assoc k hs.
Proof.
  intros Hne; induction hs as [|[k2 v2] r IH]; simpl.
  - rewrite (proj2 (String.eqb_neq k k') Hne); reflexivity.
  - destruct (String.eqb_spec k' k2) as [E|E]; subst; simpl.
    + rewrite (proj2 (String.eqb_neq k k2) Hne); reflexivity.
    + destruct (String.eqb k k2); [reflexivity | exact IH].
Qed.

Lemma sent_one_intro (config : DemoConfig) (path : string) (options : RequestOptions)
    (fetch : Request -> Response) (P : Request -> Prop) (req : Request) :
  prepare_request config path options = inr req -> P req ->
  sent_one config path options fetch P.
Proof.
  intros Hp HP; unfold sent_one, jsonRequest; rewrite Hp.
  exists req; destruct (negb (ok (fetch req))); eexists; (split; [reflexivity | exact HP]).
Qed.

Lemma fails_unsent_intro (config : DemoConfig) (path : string) (options : RequestOptions)
    (fetch : Request -> Response) (msg : string) :
  prepare_request config path options = inl (api_error msg) ->
  fails_unsent config path options fetch msg.
Proof. intros Hp; unfold fails_unsent, jsonRequest; rewrite Hp; reflexivity. Qed.

(** C5: a [session]-class request without a non-empty token, or a
    [public] / [manage]-class request whose key is empty, throws an
    [ApiError] and sends nothing. Otherwise exactly one request is sent:
    for [session] it carries [Authorization: Bearer <token>]; for [manage]
    its [x-api-key] is the management key; for [public] its [x-api-key] is
    the public key. The [public] case holds for the options every caller in
    [api.ts] passes: none sets [useManageProjectKey] (the options are
    [session_options] or [key_options]), the flag that would let the
    management key overwrite the public one. *)
Theorem jsonRequest_credentials (config : DemoConfig) (path : string)
    (options : RequestOptions) (fetch : Request -> Response) :
  (require options = Some CSession -> (token options = None \/ token options = Some "") ->
     fails_unsent config path options fetch "Access is required for this action.") /\
  (require options = Some CPublic -> publicProjectKey config = "" ->
     fails_unsent config path options fetch "Public access key is missing.") /\
  (require options = Some CManage -> manageProjectKey config = "" ->
     fails_unsent config path options fetch "Management access key is missing.") /\
  (forall t, require options = Some CSession -> token options = Some t -> t <> "" ->
     sent_one config path options fetch
       (fun req => assoc "Authorization" (headers req) = Some ("Bearer " ++ t))) /\
  (require options = Some CPublic -> useManageProjectKey options = false ->
     publicProjectKey config <> "" ->
     sent_one config path options fetch
       (fun req => assoc "x-api-key" (headers req) = Some (publicProjectKey config))) /\
  (require options = Some CManage -> manageProjectKey config <> "" ->
     sent_one config path options fetch
       (fun req => assoc "x-api-key" (headers req) = Some (manageProjectKey config))) /\
  (forall m tok b c, useManageProjectKey (session_options m tok b) = false /\
     useManageProjectKey (key_options m b c) = false).
Proof.
  destruct options as [meth ih tok usePub useMan bdy req]; cbn [require token
    usePublicProjectKey useManageProjectKey body init_headers method].
  split; [|split; [|split; [|split; [|split; [|split]]]]].
  - intros -> [-> | ->]; apply fails_unsent_intro; reflexivity.
  - intros -> Hk. apply fails_unsent_intro. unfold prepare_request; cbn.
    rewrite Hk. reflexivity.
  - intros -> Hk. apply fails_unsent_intro. unfold prepare_request; cbn.
    rewrite Hk. destruct (usePub && str_truthy (publicProjectKey config)); reflexivity.
  - intros t -> -> Ht. pose proof (str_truthy_true t Ht) as Et.
    destruct usePub, useMan, (str_truthy (publicProjectKey config)) eqn:Ep,
      (str_truthy (manageProjectKey config)) eqn:Em;
    (eapply sent_one_intro;
     [unfold prepare_request; cbn; rewrite ?Et, ?Ep, ?Em; reflexivity
     | cbn; repeat rewrite assoc_hset_other by discriminate; apply assoc_hset_same]).
  - intros -> -> Hk. pose proof (str_truthy_true _ Hk) as Ep.
    destruct usePub;
    (eapply sent_one_intro;
     [unfold prepare_request; cbn; rewrite ?Ep; reflexivity
     | cbn; repeat rewrite assoc_hset_other by discriminate; apply assoc_hset_same]).
  - intros -> Hk. pose proof (str_truthy_true _ Hk) as Em.
    destruct usePub, useMan, (str_truthy (publicProjectKey config)) eqn:Ep;
    (eapply sent_one_intro;
     [unfold prepare_request; cbn; rewrite ?Ep, ?Em; reflexivity
     | cbn; apply assoc_hset_same]).
  - intros m tk b c; split; reflexivity.
Qed.


(** C6 (counterexample): a 400 response whose JSON body has an [error]
    field that is the empty string and a [message] field raises an error
    carrying the [message] field, not the [error] field. *)
Lemma error_field_empty_cex :
  let body := JObj [("error", JStr ""); ("message", JStr "Title required")] in
  let fetch := fun _ : Request =>
    {| status := 400; statusText := "Bad Request"; text := RJson body |} in
  snd (jsonRequest ex_config "/app/collections/todos/records"
         {| method := "POST"; init_headers := []; token := Some "tok";
            usePublicProjectKey := false; useManageProjectKey := false;
            body := Some (JObj []); require := Some CSession |} fetch)
  = Err {| message := JStr "Title required"; err_status := Some 400; details := Some body |}.
Proof. vm_compute. reflexivity. Qed.

(** C6 (amended): for every request that is sent and answered with a
    non-success status, [jsonRequest] raises an [ApiError] carrying that
    status, the parsed body as details, and as message: the body's [error]
    field when the body is a JSON object (or array) and that field is
    truthy; else its [message] field when truthy; else the status text
    when non-empty; else "Request failed". *)
Theorem jsonRequest_error_message (config : DemoConfig) (path : string)
    (options : RequestOptions) (fetch : Request -> Response) (req : Request)
    (Hprep : prepare_request config path options = inr req)
    (Hfail : ok (fetch req) = false) :
  let resp := fetch req in
  let d := response_data (text resp) in
  exists e,
    jsonRequest config path options fetch = ([req], Err e) /\
    err_status e = Some (status resp) /\ details e = Some d /\
    (forall v, obj_field d "error" = Some v -> truthy (Some v) = true -> message e = v) /\
    (forall v, truthy (obj_field d "error") = false -> obj_field d "message" = Some v ->
       truthy (Some v) = true -> message e = v) /\
    (truthy (obj_field d "error") = false -> truthy (obj_field d "message") = false ->
       statusText resp <> "" -> message e = JStr (statusText resp)) /\
    (truthy (obj_field d "error") = false -> truthy (obj_field d "message") = false ->
       statusText resp = "" -> message e = JStr "Request failed").
Proof.
  cbv zeta. unfold jsonRequest. rewrite Hprep, Hfail. cbn [negb].
  eexists; split; [reflexivity|]. cbn [err_status details message].
  split; [reflexivity|]. split; [reflexivity|].
  unfold error_message.
  set (d := response_data (text (fetch req))).
  split; [|split; [|split]].
  - intros v Hv Ht. rewrite Hv, Ht. destruct v; try reflexivity; discriminate.
  - intros v He Hv Ht. rewrite He, Hv, Ht. destruct v; try reflexivity; discriminate.
  - intros He Hm Hs. rewrite He, Hm, (str_truthy_true _ Hs). reflexivity.
  - intros He Hm Hs. rewrite He, Hm, Hs. reflexivity.
Qed.

(** ** Toggling a record *)

(** C8 (counterexample): toggling a record that carries an extension field
    ([priority]) sends a full replacement without it. *)
Lemma toggle_drops_extension_field_cex :
  get (data ex_todo) "priority" = Some (JNum 2) /\
  update_body (toggle_payload ex_todo)
    = JObj [("data", JObj [("title", JStr "Buy milk"); ("notes", JStr "");
                          ("completed", JBool true)])] /\
  get_opt (get (update_body (toggle_payload ex_todo)) "data") "priority" = None.
Proof. vm_compute. repeat split. Qed.

(** C8 (amended): for every record whose [completed] field is [false],
    [handleToggleTodo] sends the full replacement [{ data: { title, notes,
    completed: true } }], with [title] and [notes] the record's string
    fields (the empty string when missing or not a string) and no other
    field; on success the record with that id is replaced in place by the
    server's response and every other record stays where it was. *)
Theorem toggle_payload_flips (todo : TodoItem)
    (Hc : get (data todo) "completed" = Some (JBool false)) :
  let str_field k := match get (data todo) k with Some (JStr s) => s | _ => "" end in
  toggle_payload todo = {| title := str_field "title"; notes := str_field "notes"; completed := true |} /\
  update_body (toggle_payload todo)
    = JObj [("data", JObj [("title", JStr (str_field "title")); ("notes", JStr (str_field "notes"));
                          ("completed", JBool true)])] /\
  (forall todos updated,
     length (replace_by_id todos (id todo) updated) = length todos /\
     forall i t, nth_error todos i = Some t ->
       nth_error (replace_by_id todos (id todo) updated) i
       = Some (if String.eqb (id t) (id todo) then updated else t)).
Proof.
  cbv zeta.
  assert (Hp : toggle_payload todo =
          {| title := match get (data todo) "title" with Some (JStr s) => s | _ => "" end;
             notes := match get (data todo) "notes" with Some (JStr s) => s | _ => "" end;
             completed := true |}).
  { unfold toggle_payload, normalizeTodo.
    destruct (data todo) as [| | | | |fs]; try discriminate Hc.
    cbn [get] in *. rewrite Hc. reflexivity. }
  split; [exact Hp|]. split; [rewrite Hp; reflexivity|].
  intros todos updated. unfold replace_by_id. split; [apply length_map|].
  intros i t Hi. rewrite nth_error_map, Hi. reflexivity.
Qed.

(** ** Page re-listed after a delete *)

(** Invariant of the pagination state: without server metadata the page
    is [1]; the metadata's page is at least [1]. *)
Lemma page_state_invariant (st : PageState) :
  reachable st ->
  (todoMeta st = None -> todoPage st = 1) /\
  (forall m, todoMeta st = Some m -> 1 <= page m).
Proof.
  induction 1 as [|st st' _ [IHn IHs] Hstep].
  - split; [reflexivity | discriminate].
  - destruct Hstep; cbn [todoMeta todoPage]; try (split; assumption).
    + split; [reflexivity | discriminate].
    + split; [reflexivity | discriminate].
    + split; [discriminate | intros m' E; injection E as <-; assumption].
    + split; [|assumption]. intros Hn. specialize (IHn Hn).
      unfold page_change_next, currentPage. rewrite Hn, IHn.
      destruct prev; reflexivity.
    + split; [reflexivity | assumption].
    + split; [reflexivity | assumption].
Qed.

(** C7: when a record shown on the current page is deleted, the list is
    requested again for the previous page when that record was the only
    one on the page and the page is beyond [1], and for the current page
    ([todoMeta?.page || todoPage]) otherwise. *)
Theorem delete_relists_page (st : PageState) (t : TodoItem)
    (Hr : reachable st) (Hin : In t (todos st)) :
  fetch_page (Some (delete_next_page st)) =
  (if Nat.eqb (length (todos st)) 1 && (1 <? currentPage st)
   then currentPage st - 1 else currentPage st).
Proof.
  destruct (page_state_invariant st Hr) as [Hn Hs].
  assert (Hlen : (1 <= length (todos st))%nat)
    by (destruct (todos st); [contradiction | cbn; lia]).
  unfold delete_next_page, currentPage.
  destruct (todoMeta st) as [m|] eqn:Em.
  - specialize (Hs m eq_refl).
    replace (page m =? 0) with false by (symmetry; apply Z.eqb_neq; lia).
    assert (Hl : Nat.leb (length (todos st)) 1 = Nat.eqb (length (todos st)) 1).
    { destruct (Nat.leb_spec (length (todos st)) 1), (Nat.eqb_spec (length (todos st)) 1);
      reflexivity || lia. }
    rewrite Hl.
    destruct (Nat.eqb (length (todos st)) 1 && (1 <? page m)) eqn:Ec.
    + apply andb_prop in Ec as [_ Ec]. apply Z.ltb_lt in Ec.
      unfold fetch_page, number_or.
      replace (page m - 1 =? 0) with false by (symmetry; apply Z.eqb_neq; lia). lia.
    + unfold fetch_page, number_or.
      replace (page m =? 0) with false by (symmetry; apply Z.eqb_neq; lia). lia.
  - rewrite (Hn eq_refl). cbn. rewrite andb_false_r. reflexivity.
Qed.

Lemma ex_page3_reachable : reachable ex_page3.
Proof.
  apply reach_step with initial_page_state; [constructor|].
  apply step_refresh_ok. cbn; lia.
Qed.

(** Witness of C7: deleting the only record of page 3 re-lists page 2. *)
Lemma delete_relists_page_witness :
  reachable ex_page3 /\ In ex_todo (todos ex_page3) /\
  fetch_page (Some (delete_next_page ex_page3)) = 2.
Proof.
  split; [exact ex_page3_reachable|]. split; [left; reflexivity|].
  rewrite (delete_relists_page ex_page3 ex_todo ex_page3_reachable (or_introl eq_refl)).
  reflexivity.
Defined.

(** ** Strings, endpoint wrappers, handlers and derived state *)

Lemma hex_digit_code (n : nat) : (n < 16)%nat ->
  nat_of_ascii (hex_digit n) = (if Nat.ltb n 10 then 48 + n else 55 + n)%nat.
Proof.
  intros H; unfold hex_digit; destruct (Nat.ltb n 10) eqn:E;
    apply nat_ascii_embedding; lia.
Qed.

Lemma hex_digit_inj (n m : nat) : (n < 16)%nat -> (m < 16)%nat -> hex_digit n = hex_digit m -> n = m.
Proof.
  intros Hn Hm H.
  assert (E : nat_of_ascii (hex_digit n) = nat_of_ascii (hex_digit m)) by (rewrite H; reflexivity).
  rewrite !hex_digit_code in E by assumption.
  destruct (Nat.ltb_spec n 10), (Nat.ltb_spec m 10); lia.
Qed.

Lemma hex_digit_unreserved (n : nat) : (n < 16)%nat -> uri_unreserved (hex_digit n) = true.
Proof.
  intros H. do 16 (destruct n as [|n]; [reflexivity|]). lia.
Qed.

Lemma ascii_div16 (c : ascii) : (nat_of_ascii c / 16 < 16)%nat.
Proof. pose proof (nat_ascii_bounded c). apply Nat.Div0.div_lt_upper_bound. lia. Qed.

Lemma ascii_mod16 (c : ascii) : (nat_of_ascii c mod 16 < 16)%nat.
Proof. apply Nat.mod_upper_bound. lia. Qed.

Lemma percent_byte_inj (c1 c2 : ascii) :
  hex_digit (nat_of_ascii c1 / 16) = hex_digit (nat_of_ascii c2 / 16) ->
  hex_digit (nat_of_ascii c1 mod 16) = hex_digit (nat_of_ascii c2 mod 16) -> c1 = c2.
Proof.
  intros Hhi Hlo.
  apply hex_digit_inj in Hlo; [|apply ascii_mod16|apply ascii_mod16].
  apply hex_digit_inj in Hhi; [|apply ascii_div16|apply ascii_div16].
  rewrite <- (ascii_nat_embedding c1), <- (ascii_nat_embedding c2).
  f_equal.
  pose proof (Nat.div_mod_eq (nat_of_ascii c1) 16).
  pose proof (Nat.div_mod_eq (nat_of_ascii c2) 16). lia.
Qed.

(** [encodeURIComponent] only ever outputs unreserved characters and [%]: an encoded slug or record id never contains [/], [?], [#] or [&], so it stays one path segment. *)
Theorem encodeURIComponent_alphabet (s : string) (c : ascii) :
  In c (list_ascii_of_string (encodeURIComponent s)) ->
  uri_unreserved c = true \/ c = "%"%char.
Proof.
  induction s as [|c0 r IH]; simpl; [tauto|].
  destruct (uri_unreserved c0) eqn:U; simpl.
  - intros [<-|H]; [left; exact U | exact (IH H)].
  - intros [<-|[<-|[<-|H]]].
    + right; reflexivity.
    + left; apply hex_digit_unreserved, ascii_div16.
    + left; apply hex_digit_unreserved, ascii_mod16.
    + exact (IH H).
Qed.

(** [encodeURIComponent] is injective: distinct slugs or record ids give distinct paths. *)
Theorem encodeURIComponent_injective (s1 s2 : string) :
  encodeURIComponent s1 = encodeURIComponent s2 -> s1 = s2.
Proof.
  revert s2; induction s1 as [|c1 r1 IH]; intros [|c2 r2]; cbn [encodeURIComponent].
  - reflexivity.
  - destruct (uri_unreserved c2); discriminate.
  - destruct (uri_unreserved c1); discriminate.
  - destruct (uri_unreserved c1) eqn:U1, (uri_unreserved c2) eqn:U2;
      intros H.
    + injection H as Hc Hr; subst; f_equal; apply IH; exact Hr.
    + injection H as Hc Hr; subst; vm_compute in U1; discriminate U1.
    + injection H as Hc Hr; subst; vm_compute in U2; discriminate U2.
    + injection H as Hhi Hlo Hr.
      rewrite (percent_byte_inj c1 c2 Hhi Hlo); f_equal; apply IH; exact Hr.
Qed.

(** A string made of unreserved characters only (such as the default slug [todos]) is left unchanged by [encodeURIComponent]. *)
Theorem encodeURIComponent_unreserved_id (s : string) :
  forallb uri_unreserved (list_ascii_of_string s) = true -> encodeURIComponent s = s.
Proof.
  induction s as [|c r IH]; simpl; [reflexivity|].
  intros H; apply andb_prop in H as [Hc Hr]; rewrite Hc, IH by exact Hr; reflexivity.
Qed.

Lemma strip_front_clean (wl : list ascii -> nat) (fuel : nat) (l : list ascii) :
  wl [] = 0%nat -> (length l <= fuel)%nat -> wl (strip_front fuel wl l) = 0%nat.
Proof.
  intros H0; revert l; induction fuel as [|f IH]; intros l Hl; simpl.
  - destruct l; [exact H0 | simpl in Hl; lia].
  - destruct (wl l) as [|k] eqn:E; [exact E|].
    apply IH. destruct l as [|a l']; [rewrite H0 in E; discriminate|].
    rewrite length_skipn; simpl in *; lia.
Qed.

Lemma strip_front_suffix (wl : list ascii -> nat) (fuel : nat) (l : list ascii) :
  exists p, l = (p ++ strip_front fuel wl l)%list.
Proof.
  revert l; induction fuel as [|f IH]; intros l; cbn [strip_front].
  - exists []; reflexivity.
  - destruct (wl l) as [|k]; [exists []; reflexivity|].
    destruct (IH (skipn (S k) l)) as [p Hp].
    exists (firstn (S k) l ++ p)%list. rewrite <- app_assoc, <- Hp, firstn_skipn; reflexivity.
Qed.

Lemma strip_front_id (wl : list ascii -> nat) (fuel : nat) (l : list ascii) :
  wl l = 0%nat -> strip_front fuel wl l = l.
Proof. intros H; destruct fuel; simpl; [reflexivity | rewrite H; reflexivity]. Qed.

Lemma ws_len_app (p q : list ascii) : ws_len p <> 0%nat -> ws_len (p ++ q)%list = ws_len p.
Proof.
  destruct p as [|c1 [|c2 [|c3 r]]]; cbn [app]; [intros H; exfalso; apply H; reflexivity| | |];
  unfold ws_len;
  repeat match goal with |- context [if ?b then _ else _] => destruct b end;
  try reflexivity; try (intros H; exfalso; apply H; reflexivity);
  destruct q as [|d1 [|d2 q]]; try reflexivity;
  repeat match goal with |- context [if ?b then _ else _] => destruct b end;
  try reflexivity; intros H; exfalso; apply H; reflexivity.
Qed.

Lemma trim_list (s : string) :
  let l := list_ascii_of_string s in
  let l1 := strip_front (length l) ws_len l in
  list_ascii_of_string (trim s) = rev (strip_front (length l1) ws_len_rev (rev l1)).
Proof. unfold trim; simpl; apply list_ascii_of_string_of_list_ascii. Qed.

Lemma trim_ends (s : string) :
  ws_len (list_ascii_of_string (trim s)) = 0%nat /\
  ws_len_rev (rev (list_ascii_of_string (trim s))) = 0%nat.
Proof.
  rewrite trim_list; cbv zeta.
  set (l := list_ascii_of_string s).
  set (l1 := strip_front (length l) ws_len l).
  assert (H1 : ws_len l1 = 0%nat) by (apply strip_front_clean; [reflexivity | lia]).
  set (sfx := strip_front (length l1) ws_len_rev (rev l1)).
  assert (H2 : ws_len_rev sfx = 0%nat)
    by (apply strip_front_clean; [reflexivity | rewrite length_rev; lia]).
  split; [|rewrite rev_involutive; exact H2].
  destruct (strip_front_suffix ws_len_rev (length l1) (rev l1)) as [p Hp].
  fold sfx in Hp.
  assert (Hl1 : l1 = (rev sfx ++ rev p)%list)
    by (rewrite <- rev_app_distr, <- Hp, rev_involutive; reflexivity).
  destruct (Nat.eq_dec (ws_len (rev sfx)) 0) as [E|E]; [exact E|].
  exfalso; apply E; rewrite <- (ws_len_app _ (rev p) E), <- Hl1; exact H1.
Qed.

(** [trim] leaves no JavaScript white space or line terminator at either end of its result, so trimming twice changes nothing. *)
Theorem trim_idempotent (s : string) :
  trim (trim s) = trim s /\
  ws_len (list_ascii_of_string (trim s)) = 0%nat /\
  ws_len_rev (rev (list_ascii_of_string (trim s))) = 0%nat.
Proof.
  destruct (trim_ends s) as [H1 H2]; split; [|split; assumption].
  unfold trim at 1.
  rewrite (strip_front_id ws_len _ _ H1), (strip_front_id ws_len_rev _ _ H2), rev_involutive.
  apply string_of_list_ascii_of_string.
Qed.

Lemma prepare_session (config : DemoConfig) (p m tok : string) (b : option json) :
  str_truthy tok = true ->
  prepare_request config p (session_options m tok b) =
  inr {| url := api_base config ++ (if String.prefix "/" p then p else "/" ++ p);
         req_method := m;
         headers := hset "Authorization" ("Bearer " ++ tok)
                      (hspread ([("Accept", "application/json")]
                                ++ (match b with
                                    | Some _ => [("Content-Type", "application/json")]
                                    | None => [] end)) []);
         req_body := match b with
                     | None | Some JNull => None
                     | Some (JStr s) => Some (RawBody s)
                     | Some v => Some (JsonBody v)
                     end |}.
Proof. intros H; unfold prepare_request, session_options; cbn; rewrite H; reflexivity. Qed.

(** With a configured collection slug and a non-empty session token, [createTodo] sends exactly one request: a POST to [<base>/app/collections/<encoded slug>/records] carrying [Accept], [Content-Type] and [Authorization: Bearer <token>] and no [x-api-key], with the body [{ data: todo }]. *)
Theorem createTodo_request (config : DemoConfig) (sessionToken : string) (todo : TodoPayload)
    (fetch : Request -> Response) :
  str_truthy config.(collectionSlug) = true -> str_truthy sessionToken = true ->
  fst (createTodo config sessionToken todo fetch) =
  [{| url := api_base config ++ "/app/collections/" ++ encodeURIComponent config.(collectionSlug)
             ++ "/records";
      req_method := "POST";
      headers := [("Accept", "application/json"); ("Content-Type", "application/json");
                  ("Authorization", "Bearer " ++ sessionToken)];
      req_body := Some (JsonBody (JObj [("data", payload_to_json todo)])) |}].
Proof.
  intros Hs Ht; unfold createTodo; rewrite Hs; cbn [negb].
  unfold jsonRequest; rewrite prepare_session by exact Ht.
  destruct (negb (ok _)); reflexivity.
Qed.

(** With a configured slug and a non-empty token, [updateTodo] sends exactly one PUT to [.../records/<encoded id>] with the bearer token, no [x-api-key], and the body [{ data: todo }]. *)
Theorem updateTodo_request (config : DemoConfig) (sessionToken todoId : string) (todo : TodoPayload)
    (fetch : Request -> Response) :
  str_truthy config.(collectionSlug) = true -> str_truthy sessionToken = true ->
  fst (updateTodo config sessionToken todoId todo fetch) =
  [{| url := api_base config ++ "/app/collections/" ++ encodeURIComponent config.(collectionSlug)
             ++ "/records/" ++ encodeURIComponent todoId;
      req_method := "PUT";
      headers := [("Accept", "application/json"); ("Content-Type", "application/json");
                  ("Authorization", "Bearer " ++ sessionToken)];
      req_body := Some (JsonBody (JObj [("data", payload_to_json todo)])) |}].
Proof.
  intros Hs Ht; unfold updateTodo; rewrite Hs; cbn [negb].
  unfold jsonRequest; rewrite prepare_session by exact Ht.
  destruct (negb (ok _)); reflexivity.
Qed.

(** With a configured slug and a non-empty token, [deleteTodo] sends exactly one DELETE to [.../records/<encoded id>] with only [Accept] and the bearer token, and no body. *)
Theorem deleteTodo_request (config : DemoConfig) (sessionToken todoId : string)
    (fetch : Request -> Response) :
  str_truthy config.(collectionSlug) = true -> str_truthy sessionToken = true ->
  fst (deleteTodo config sessionToken todoId fetch) =
  [{| url := api_base config ++ "/app/collections/" ++ encodeURIComponent config.(collectionSlug)
             ++ "/records/" ++ encodeURIComponent todoId;
      req_method := "DELETE";
      headers := [("Accept", "application/json"); ("Authorization", "Bearer " ++ sessionToken)];
      req_body := None |}].
Proof.
  intros Hs Ht; unfold deleteTodo; rewrite Hs; cbn [negb].
  unfold jsonRequest; rewrite prepare_session by exact Ht.
  destruct (negb (ok _)); reflexivity.
Qed.

Lemma fetch_limit_bounds (l : option Z) : 1 <= fetch_limit l <= 100.
Proof. unfold fetch_limit; lia. Qed.

Lemma fetch_page_bound (p : option Z) : 1 <= fetch_page p.
Proof. unfold fetch_page; lia. Qed.

(** With a configured slug and a non-empty token, [fetchTodos] sends exactly one GET to [.../records?order=<o>&limit=<l>&page=<p>] with the bearer token and no body, where [o] is [asc] only when asked for, [l] lies in [1, 100] and [p] is at least [1]. *)
Theorem fetchTodos_request (config : DemoConfig) (sessionToken : string)
    (opt_page opt_limit : option Z) (opt_order : option string) (fetch : Request -> Response) :
  str_truthy config.(collectionSlug) = true -> str_truthy sessionToken = true ->
  1 <= fetch_limit opt_limit <= 100 /\ 1 <= fetch_page opt_page /\
  fst (fetchTodos config sessionToken opt_page opt_limit opt_order fetch) =
  [{| url := api_base config ++ "/app/collections/" ++ encodeURIComponent config.(collectionSlug)
             ++ "/records?order=" ++ (match opt_order with
                                      | Some o => if String.eqb o "asc" then "asc" else "desc"
                                      | None => "desc" end)
             ++ "&limit=" ++ Z_to_dec (fetch_limit opt_limit)
             ++ "&page=" ++ Z_to_dec (fetch_page opt_page);
      req_method := "GET";
      headers := [("Accept", "application/json"); ("Authorization", "Bearer " ++ sessionToken)];
      req_body := None |}].
Proof.
  intros Hs Ht; split; [apply fetch_limit_bounds|split; [apply fetch_page_bound|]].
  unfold fetchTodos; rewrite Hs; cbn [negb].
  unfold jsonRequest; rewrite prepare_session by exact Ht.
  destruct opt_order as [o|]; [destruct (String.eqb o "asc")|];
    (destruct (negb (ok _)); reflexivity).
Qed.

(** Without a collection slug, [fetchTodos], [createTodo], [updateTodo] and [deleteTodo] throw "Task register is not configured." and send nothing; with one but an empty session token they, and [fetchProfile], throw "Access is required for this action." and send nothing. *)
Theorem crud_refused_unsent (config : DemoConfig) (sessionToken todoId : string)
    (todo : TodoPayload) (opt_page opt_limit : option Z) (opt_order : option string)
    (fetch : Request -> Response) :
  (config.(collectionSlug) = "" ->
     fetchTodos config sessionToken opt_page opt_limit opt_order fetch
       = throw_unsent "Task register is not configured." /\
     createTodo config sessionToken todo fetch = throw_unsent "Task register is not configured." /\
     updateTodo config sessionToken todoId todo fetch
       = throw_unsent "Task register is not configured." /\
     deleteTodo config sessionToken todoId fetch
       = throw_unsent "Task register is not configured.") /\
  (str_truthy config.(collectionSlug) = true ->
     fetchTodos config "" opt_page opt_limit opt_order fetch
       = throw_unsent "Access is required for this action." /\
     createTodo config "" todo fetch = throw_unsent "Access is required for this action." /\
     updateTodo config "" todoId todo fetch
       = throw_unsent "Access is required for this action." /\
     deleteTodo config "" todoId fetch = throw_unsent "Access is required for this action." /\
     fetchProfile config "" fetch = throw_unsent "Access is required for this action.").
Proof.
  split.
  - intros Hs; unfold fetchTodos, createTodo, updateTodo, deleteTodo; rewrite Hs;
      repeat split.
  - intros Hs; unfold fetchTodos, createTodo, updateTodo, deleteTodo, fetchProfile; rewrite Hs;
      cbn [negb]; repeat split.
Qed.

Lemma ceil_div_spec (a b : Z) : 0 < b -> a <= ceil_div a b * b /\ (ceil_div a b - 1) * b < a.
Proof.
  intros Hb; unfold ceil_div.
  pose proof (Z.div_mod (- a) b ltac:(lia)). pose proof (Z.mod_pos_bound (- a) b Hb). nia.
Qed.

(** When the response has no truthy [meta] and its [data] is an array (or is missing or falsy, read as the empty list), [fetchTodos] returns that list with the requested page and limit, its length as [total], and as [pages] the least [k >= 1] with [total <= k * limit]. *)
Theorem fetchTodos_fallback_meta (page limit : Z) (res : json) (items : list json) :
  1 <= limit -> truthy (get res "meta") = false ->
  (get res "data" = Some (JArr items) \/ (items = [] /\ truthy (get res "data") = false)) ->
  exists k,
    fetchTodos_result page limit res =
      {| pt_data := JArr items;
         pt_meta := {| mo_page := JNum page; mo_limit := JNum limit;
                       mo_total := Some (JNum (Z.of_nat (length items)));
                       mo_pages := Some (JNum k) |} |} /\
    1 <= k /\ Z.of_nat (length items) <= k * limit /\
    (k - 1) * limit < Z.max 1 (Z.of_nat (length items)).
Proof.
  intros Hl Hm Hd.
  set (n := Z.of_nat (length items)).
  set (m := if Z.eqb n 0 then 1 else n).
  exists (Z.max 1 (ceil_div m limit)).
  assert (Hmn : m = Z.max 1 n) by (subst m; destruct (Z.eqb_spec n 0); lia).
  destruct (ceil_div_spec m limit) as [C1 C2]; [lia|].
  split; [|split; [lia | split; nia]].
  unfold fetchTodos_result; rewrite Hm.
  destruct Hd as [Hd | [-> Hd]].
  - rewrite Hd; reflexivity.
  - rewrite Hd; reflexivity.
Qed.

Lemma prepare_key (config : DemoConfig) (p m : string) (b : option json) (c : credential) (key : string) :
  c <> CSession ->
  key = (match c with CPublic => config.(publicProjectKey) | _ => config.(manageProjectKey) end) ->
  str_truthy key = true ->
  prepare_request config p (key_options m b c) =
  inr {| url := api_base config ++ (if String.prefix "/" p then p else "/" ++ p);
         req_method := m;
         headers := hset "x-api-key" key
                      (hspread ([("Accept", "application/json")]
                                ++ (match b with
                                    | Some _ => [("Content-Type", "application/json")]
                                    | None => [] end)) []);
         req_body := match b with
                     | None | Some JNull => None
                     | Some (JStr s) => Some (RawBody s)
                     | Some v => Some (JsonBody v)
                     end |}.
Proof.
  intros Hc -> Hk; unfold prepare_request, key_options; cbn.
  destruct c; [| |contradiction]; rewrite Hk; reflexivity.
Qed.

(** [requestMagicLink] throws before any request without a project id, or without a public key; otherwise it sends one POST to [/api/app-users/login] whose [x-api-key] is the public key, with no [Authorization] header and the body [{ email, project_id }]. *)
Theorem requestMagicLink_request (config : DemoConfig) (email : string)
    (fetch : Request -> Response) :
  (projectId_truthy config.(projectId) = false ->
     requestMagicLink config email fetch
       = throw_unsent "Project identifier is missing. Update configuration.") /\
  (projectId_truthy config.(projectId) = true -> config.(publicProjectKey) = "" ->
     requestMagicLink config email fetch
       = throw_unsent "Public access key is missing. Access requests are disabled.") /\
  (forall pid, config.(projectId) = Some pid -> pid <> 0 ->
     str_truthy config.(publicProjectKey) = true ->
     fst (requestMagicLink config email fetch) =
     [{| url := api_base config ++ "/api/app-users/login";
         req_method := "POST";
         headers := [("Accept", "application/json"); ("Content-Type", "application/json");
                     ("x-api-key", config.(publicProjectKey))];
         req_body := Some (JsonBody (JObj [("email", JStr email); ("project_id", JNum pid)])) |}]).
Proof.
  unfold requestMagicLink, projectId_truthy.
  split; [|split].
  - destruct (projectId config) as [pid|]; [|reflexivity].
    destruct (Z.eqb_spec pid 0); [reflexivity | discriminate].
  - destruct (projectId config) as [pid|]; [|discriminate].
    destruct (Z.eqb_spec pid 0); [discriminate|]. intros _ ->; reflexivity.
  - intros pid -> Hp Hk. rewrite (proj2 (Z.eqb_neq pid 0) Hp), Hk; cbn [negb].
    unfold jsonRequest; rewrite (prepare_key _ _ _ _ CPublic _ ltac:(discriminate) eq_refl Hk).
    destruct (negb (ok _)); reflexivity.
Qed.

(** The [sent] flag of a magic-link answer is false exactly when the payload has an explicit [sent] that is falsy and not [null]; a payload without [sent] counts as sent. Without [data] in the response, the fields are read from the response itself. *)
Theorem magicLink_sent_default (res : json) :
  (sent (magic_result res) = false <->
   exists v, get (magic_payload res) "sent" = Some v /\ v <> JNull /\ truthy (Some v) = false) /\
  ((get res "data" = None \/ get res "data" = Some JNull) ->
   ml_token (magic_result res) = get res "token" /\
   magicLink (magic_result res) = get res "magicLink").
Proof.
  split.
  - unfold magic_result; cbn [sent]. destruct (get (magic_payload res) "sent") as [v|].
    + destruct v; cbn; split; intros H;
        try discriminate; try (eexists; split; [reflexivity|split; [discriminate|exact H]]);
        try (destruct H as (w & Hw & Hn & Ht); injection Hw as <-; first [exact Ht | congruence]).
    + cbn; split; [discriminate|intros (w & Hw & _); discriminate].
  - intros Hd; unfold magic_result, magic_payload, nullish_or.
    destruct Hd as [-> | ->]; split; reflexivity.
Qed.

(** [verifyMagicToken] throws before any request without a project id, or without a management key; otherwise it sends one POST to [/api/app-users/verify] whose [x-api-key] is the management key, with the body [{ token, project_id }]. *)
Theorem verifyMagicToken_request (config : DemoConfig) (token : string)
    (fetch : Request -> Response) :
  (projectId_truthy config.(projectId) = false ->
     verifyMagicToken config token fetch
       = throw_unsent "Project identifier is missing. Update configuration.") /\
  (projectId_truthy config.(projectId) = true -> config.(manageProjectKey) = "" ->
     verifyMagicToken config token fetch = throw_unsent "Management access key is missing.") /\
  (forall pid, config.(projectId) = Some pid -> pid <> 0 ->
     str_truthy config.(manageProjectKey) = true ->
     fst (verifyMagicToken config token fetch) =
     [{| url := api_base config ++ "/api/app-users/verify";
         req_method := "POST";
         headers := [("Accept", "application/json"); ("Content-Type", "application/json");
                     ("x-api-key", config.(manageProjectKey))];
         req_body := Some (JsonBody (JObj [("token", JStr token); ("project_id", JNum pid)])) |}]).
Proof.
  unfold verifyMagicToken, projectId_truthy.
  split; [|split].
  - destruct (projectId config) as [pid|]; [|reflexivity].
    destruct (Z.eqb_spec pid 0); [reflexivity | discriminate].
  - destruct (projectId config) as [pid|]; [|discriminate].
    destruct (Z.eqb_spec pid 0); [discriminate|]. intros _ Hk.
    unfold jsonRequest, prepare_request, key_options; cbn. rewrite Hk; reflexivity.
  - intros pid -> Hp Hk. rewrite (proj2 (Z.eqb_neq pid 0) Hp).
    unfold jsonRequest; rewrite (prepare_key _ _ _ _ CManage _ ltac:(discriminate) eq_refl Hk).
    destruct (negb (ok _)); reflexivity.
Qed.

(** A successful verify response without [data] (an empty body, or [data] missing or [null]) makes [verifyMagicToken] throw a [TypeError], not an [ApiError]. *)
Theorem verifyMagicToken_missing_data (config : DemoConfig) (token : string) (pid : Z)
    (resp : Response) :
  config.(projectId) = Some pid -> pid <> 0 -> str_truthy config.(manageProjectKey) = true ->
  ok resp = true ->
  (get (response_data resp.(text)) "data" = None \/
   get (response_data resp.(text)) "data" = Some JNull) ->
  snd (verifyMagicToken config token (fun _ => resp)) = TypeError.
Proof.
  intros Hpid Hp Hk Hok Hd; unfold verifyMagicToken; rewrite Hpid, (proj2 (Z.eqb_neq pid 0) Hp).
  unfold jsonRequest; rewrite (prepare_key _ _ _ _ CManage _ ltac:(discriminate) eq_refl Hk).
  rewrite Hok; cbn [negb and_then snd].
  destruct (response_data (text resp)); try reflexivity;
    destruct Hd as [Hd|Hd]; rewrite Hd; reflexivity.
Qed.

(** [fetchAppUserTotal] throws before any request without a project id or without any key; otherwise it sends one GET to [/api/projects/<id>/app-users/total] with the public key as [x-api-key] when there is one, and the management key only when there is none. *)
Theorem fetchAppUserTotal_key (number_or_zero : option json -> Z) (config : DemoConfig)
    (fetch : Request -> Response) :
  (projectId_truthy config.(projectId) = false ->
     fetchAppUserTotal number_or_zero config fetch
       = throw_unsent "Project identifier is missing. Update configuration.") /\
  (projectId_truthy config.(projectId) = true ->
     config.(publicProjectKey) = "" -> config.(manageProjectKey) = "" ->
     fetchAppUserTotal number_or_zero config fetch
       = throw_unsent "Access key is missing. Add a public or management key.") /\
  (forall pid, config.(projectId) = Some pid -> pid <> 0 ->
     (str_truthy config.(publicProjectKey) = true \/ str_truthy config.(manageProjectKey) = true) ->
     fst (fetchAppUserTotal number_or_zero config fetch) =
     [{| url := api_base config ++ "/api/projects/" ++ Z_to_dec pid ++ "/app-users/total";
         req_method := "GET";
         headers := [("Accept", "application/json");
                     ("x-api-key", if str_truthy config.(publicProjectKey)
                                   then config.(publicProjectKey)
                                   else config.(manageProjectKey))];
         req_body := None |}]).
Proof.
  unfold fetchAppUserTotal, projectId_truthy.
  split; [|split].
  - destruct (projectId config) as [pid|]; [|reflexivity].
    destruct (Z.eqb_spec pid 0); [reflexivity | discriminate].
  - destruct (projectId config) as [pid|]; [|discriminate].
    destruct (Z.eqb_spec pid 0); [discriminate|]. intros _ -> ->; reflexivity.
  - intros pid -> Hp Hk. rewrite (proj2 (Z.eqb_neq pid 0) Hp).
    destruct (str_truthy (publicProjectKey config)) eqn:Ep.
    + cbn [negb andb].
      unfold jsonRequest; rewrite (prepare_key _ _ _ _ CPublic _ ltac:(discriminate) eq_refl Ep).
      destruct (negb (ok _)); reflexivity.
    + destruct Hk as [Hk|Hk]; [discriminate|]. rewrite Hk; cbn [negb andb].
      unfold jsonRequest; rewrite (prepare_key _ _ _ _ CManage _ ltac:(discriminate) eq_refl Hk).
      destruct (negb (ok _)); reflexivity.
Qed.

Lemma trim_trim (s : string) : trim (trim s) = trim s.
Proof.
  destruct (trim_ends s) as [H1 H2]. unfold trim at 1.
  rewrite (strip_front_id ws_len _ _ H1), (strip_front_id ws_len_rev _ _ H2), rev_involutive.
  apply string_of_list_ascii_of_string.
Qed.

(** [handleCreateTodo] refuses a title that is empty after [trim] without calling the server; otherwise the one request goes to the path it logs and carries the trimmed title and notes, which are their own trim. *)
Theorem handleCreateTodo_trimmed (config : DemoConfig) (sessionToken : string)
    (draftTodo : TodoPayload) (fetch : Request -> Response) :
  (trim draftTodo.(title) = "" ->
     handleCreateTodo_call config sessionToken draftTodo fetch
       = Refused "Enter a record title before saving.") /\
  (trim draftTodo.(title) <> "" -> str_truthy config.(collectionSlug) = true ->
   str_truthy sessionToken = true ->
   exists res,
     handleCreateTodo_call config sessionToken draftTodo fetch =
     Called [{| url := api_base config ++ handleCreateTodo_logged_path config;
                req_method := "POST";
                headers := [("Accept", "application/json");
                            ("Content-Type", "application/json");
                            ("Authorization", "Bearer " ++ sessionToken)];
                req_body := Some (JsonBody (JObj [("data", JObj
                              [("title", JStr (trim draftTodo.(title)));
                               ("notes", JStr (trim draftTodo.(notes)));
                               ("completed", JBool draftTodo.(completed))])])) |}] res /\
     trim (trim draftTodo.(title)) = trim draftTodo.(title) /\
     trim (trim draftTodo.(notes)) = trim draftTodo.(notes)).
Proof.
  unfold handleCreateTodo_call; split.
  - intros ->; reflexivity.
  - intros Ht Hs Hk. rewrite (str_truthy_true _ Ht); cbn [negb].
    eexists; split; [|split; apply trim_trim].
    unfold called; f_equal.
    unfold createTodo; rewrite Hs; cbn [negb].
    unfold jsonRequest; rewrite prepare_session by exact Hk.
    destruct (negb (ok _)); reflexivity.
Qed.

(** [handleUpdateTodo] refuses a record with no draft, or with a blank title, without calling the server; otherwise its one PUT carries the draft's trimmed title and notes. *)
Theorem handleUpdateTodo_trimmed (config : DemoConfig) (sessionToken : string)
    (todoDrafts : list (string * TodoPayload)) (todoId : string) (fetch : Request -> Response) :
  (assoc todoId todoDrafts = None ->
     handleUpdateTodo_call config sessionToken todoDrafts todoId fetch
       = Refused "Enter a record title before saving.") /\
  (forall draft, assoc todoId todoDrafts = Some draft -> trim draft.(title) = "" ->
     handleUpdateTodo_call config sessionToken todoDrafts todoId fetch
       = Refused "Enter a record title before saving.") /\
  (forall draft, assoc todoId todoDrafts = Some draft -> trim draft.(title) <> "" ->
   str_truthy config.(collectionSlug) = true -> str_truthy sessionToken = true ->
   exists res,
     handleUpdateTodo_call config sessionToken todoDrafts todoId fetch =
     Called [{| url := api_base config ++ "/app/collections/"
                       ++ encodeURIComponent config.(collectionSlug)
                       ++ "/records/" ++ encodeURIComponent todoId;
                req_method := "PUT";
                headers := [("Accept", "application/json");
                            ("Content-Type", "application/json");
                            ("Authorization", "Bearer " ++ sessionToken)];
                req_body := Some (JsonBody (JObj [("data", JObj
                              [("title", JStr (trim draft.(title)));
                               ("notes", JStr (trim draft.(notes)));
                               ("completed", JBool draft.(completed))])])) |}] res).
Proof.
  unfold handleUpdateTodo_call; split; [|split].
  - intros ->; reflexivity.
  - intros draft -> ->; reflexivity.
  - intros draft -> Ht Hs Hk. rewrite (str_truthy_true _ Ht); cbn [negb].
    eexists. unfold called; f_equal.
    unfold updateTodo; rewrite Hs; cbn [negb].
    unfold jsonRequest; rewrite prepare_session by exact Hk.
    destruct (negb (ok _)); reflexivity.
Qed.


Lemma filter_split_length {A} (f : A -> bool) (l : list A) :
  (length (List.filter (fun t => negb (f t)) l) + length (List.filter f l) = length l)%nat.
Proof. induction l as [|a l IH]; [reflexivity|]; cbn; destruct (f a); cbn; lia. Qed.

(** The [all] filter shows every record; the [completed] and [active] filters split the records between them, with [completedCount] and [remainingCount] records. *)
Theorem visibleTodos_partition (todos : list TodoItem) :
  visibleTodos FAll todos = todos /\
  length (visibleTodos FCompleted todos) = completedCount todos /\
  Z.of_nat (length (visibleTodos FActive todos)) = remainingCount todos /\
  (forall t, In t todos ->
     (In t (visibleTodos FActive todos) <-> ~ In t (visibleTodos FCompleted todos))).
Proof.
  set (c := fun todo : TodoItem => completed (normalizeTodo (Some (data todo)))).
  assert (Hc : visibleTodos FCompleted todos = List.filter c todos).
  { unfold visibleTodos; apply filter_ext; intros t; subst c; cbv beta;
      destruct (completed _); reflexivity. }
  assert (Ha : visibleTodos FActive todos = List.filter (fun t => negb (c t)) todos).
  { unfold visibleTodos; apply filter_ext; intros t; subst c; cbv beta;
      destruct (completed _); reflexivity. }
  split; [reflexivity|].
  split; [rewrite Hc; reflexivity|].
  split.
  - rewrite Ha; unfold remainingCount, completedCount; fold c.
    pose proof (filter_split_length c todos); lia.
  - intros t Ht; rewrite Ha, Hc, !filter_In.
    destruct (c t); cbn; intuition discriminate.
Qed.




(** When the store has no readable item (no [localStorage], no item, or unparsable text), [ensureActiveSession] refuses every session, even an unexpired one, with "Access not active. Request access." and clears the item. *)
Theorem ensureActiveSession_without_stored_token (date_getTime : string -> option Z)
    (envBaseUrl : string) (config : DemoConfig) (st : storage) (now : Z)
    (s : Session.t) (missingMessage : string) :
  (st = NoStorage \/ st = LocalStorage None \/ exists raw, st = LocalStorage (Some (Unparsable raw))) ->
  ensureActiveSession date_getTime envBaseUrl config st now (Some s) missingMessage =
    (GuardFail "Access not active. Request access.", clear_storage st).
Proof. intros [->|[->|[raw ->]]]; reflexivity. Qed.

Lemma configReady_parts (config : DemoConfig) :
  configReady config = true ->
  projectId_truthy config.(projectId) = true /\ str_truthy config.(publicProjectKey) = true /\
  str_truthy config.(manageProjectKey) = true /\ str_truthy config.(collectionSlug) = true.
Proof.
  unfold configReady, configWarnings.
  destruct (projectId_truthy _), (str_truthy (publicProjectKey _)),
    (str_truthy (manageProjectKey _)), (str_truthy (collectionSlug _)); cbn; easy.
Qed.

(** [handleRequestLink] only checks the configuration: with a ready configuration it always sends the login request, with the trimmed email, even when that email is empty. *)
Theorem handleRequestLink_blank_email (config : DemoConfig) (email : string)
    (fetch : Request -> Response) :
  (configReady config = false ->
     handleRequestLink_call config email fetch = Refused "System configuration is incomplete.") /\
  (configReady config = true ->
   exists pid res, config.(projectId) = Some pid /\
     handleRequestLink_call config email fetch =
     Called [{| url := api_base config ++ "/api/app-users/login";
                req_method := "POST";
                headers := [("Accept", "application/json");
                            ("Content-Type", "application/json");
                            ("x-api-key", config.(publicProjectKey))];
                req_body := Some (JsonBody (JObj [("email", JStr (trim email));
                                                  ("project_id", JNum pid)])) |}] res).
Proof.
  unfold handleRequestLink_call; split.
  - intros ->; reflexivity.
  - intros Hr. destruct (configReady_parts config Hr) as (Hp & Hk & _ & _).
    rewrite Hr; cbn [negb].
    unfold projectId_truthy in Hp; destruct (projectId config) as [pid|] eqn:Epid; [|discriminate].
    exists pid; eexists; split; [reflexivity|].
    unfold called; f_equal.
    unfold requestMagicLink; rewrite Epid.
    destruct (Z.eqb pid 0); [discriminate|]. rewrite Hk; cbn [negb].
    unfold jsonRequest; rewrite (prepare_key _ _ _ _ CPublic _ ltac:(discriminate) eq_refl Hk).
    destruct (negb (ok _)); reflexivity.
Qed.

(** [envConfig] always has a non-empty base URL. The collection slug defaults to [todos] only when its variable is unset or empty: a variable of blanks gives an empty slug and the warning "Set a collection slug"; blank keys likewise give their warnings. *)
Theorem envConfig_trimmed_fields (js_Number : string -> option Z) (env : ImportMetaEnv) :
  str_truthy (envConfig js_Number env).(baseUrl) = true /\
  (env.(VITE_REQRES_COLLECTION_SLUG) = None \/ env.(VITE_REQRES_COLLECTION_SLUG) = Some "" ->
     (envConfig js_Number env).(collectionSlug) = "todos") /\
  (forall v, env.(VITE_REQRES_COLLECTION_SLUG) = Some v -> v <> "" -> trim v = "" ->
     (envConfig js_Number env).(collectionSlug) = "" /\
     In "Set a collection slug" (configWarnings (envConfig js_Number env))) /\
  (forall v, env.(VITE_REQRES_PUBLIC_KEY) = Some v -> trim v = "" ->
     In "Add the public project key" (configWarnings (envConfig js_Number env))) /\
  (forall v, env.(VITE_REQRES_MANAGE_KEY) = Some v -> trim v = "" ->
     In "Add the manage project key" (configWarnings (envConfig js_Number env))).
Proof.
  split; [|split; [|split; [|split]]].
  - unfold envConfig; cbn [baseUrl].
    destruct (str_truthy (sanitizeBaseUrl _)) eqn:E; [exact E|].
    destruct (DEV env); reflexivity.
  - intros [H|H]; unfold envConfig, env_or; cbn [collectionSlug]; rewrite H; reflexivity.
  - intros v Hv Hne Ht.
    assert (Hs : (envConfig js_Number env).(collectionSlug) = "").
    { unfold envConfig, env_or; cbn [collectionSlug]; rewrite Hv, (str_truthy_true _ Hne); exact Ht. }
    split; [exact Hs|]. unfold configWarnings; rewrite Hs.
    apply in_or_app; right; apply in_or_app; right; apply in_or_app; right; left; reflexivity.
  - intros v Hv Ht.
    assert (Hs : (envConfig js_Number env).(publicProjectKey) = "").
    { unfold envConfig, env_or; cbn [publicProjectKey]; rewrite Hv.
      destruct (str_truthy v); [exact Ht | reflexivity]. }
    unfold configWarnings; rewrite Hs.
    apply in_or_app; right; apply in_or_app; left; left; reflexivity.
  - intros v Hv Ht.
    assert (Hs : (envConfig js_Number env).(manageProjectKey) = "").
    { unfold envConfig, env_or; cbn [manageProjectKey]; rewrite Hv.
      destruct (str_truthy v); [exact Ht | reflexivity]. }
    unfold configWarnings; rewrite Hs.
    apply in_or_app; right; apply in_or_app; right; apply in_or_app; left; left; reflexivity.
Qed.

(** ** Witnesses *)


(** Witness of C5: a [public]-class call built by [key_options], as
    [requestMagicLink] builds it, sends the public key. *)
Lemma jsonRequest_credentials_witness :
  sent_one ex_config "/api/app-users/login" (key_options "POST" None CPublic) ex_fetch_ok
    (fun req => assoc "x-api-key" (headers req) = Some (publicProjectKey ex_config)).
Proof.
  destruct (jsonRequest_credentials ex_config "/api/app-users/login"
              (key_options "POST" None CPublic) ex_fetch_ok) as (_ & _ & _ & _ & Hp & _).
  apply Hp; [reflexivity | reflexivity | cbn; discriminate].
Defined.


(** Witness of C4: the legacy bare session of [ex_session]. *)
Lemma legacy_session_purged_witness :
  truthy (get (session_to_json (ex_session "2026-10-19T00:00:00.000Z")) "session") = false /\
  truthy (get (session_to_json (ex_session "2026-10-19T00:00:00.000Z")) "token") = true /\
  loadStoredSession "https://reqres.in" ex_config
    (LocalStorage (Some (Text (session_to_json (ex_session "2026-10-19T00:00:00.000Z")))))
  = (None, LocalStorage None).
Proof.
  split; [reflexivity|]. split; [reflexivity|].
  apply legacy_session_purged; reflexivity.
Defined.

(** Witness of C6: a 400 answer whose body names an [error]. *)
Lemma jsonRequest_error_message_witness :
  exists req, prepare_request ex_config "/api/app-users/me" ex_session_opts = inr req /\
    ok (ex_fetch_400 req) = false /\
    exists e, jsonRequest ex_config "/api/app-users/me" ex_session_opts ex_fetch_400 = ([req], Err e) /\
      message e = JStr "Invalid" /\ err_status e = Some 400.
Proof.
  eexists; split; [reflexivity|]. split; [reflexivity|].
  destruct (jsonRequest_error_message ex_config "/api/app-users/me" ex_session_opts ex_fetch_400
              _ eq_refl eq_refl) as (e & He & Hs & _ & H1 & _).
  exists e; split; [exact He|]. split; [apply H1; reflexivity | exact Hs].
Defined.

(** Witness of C8: toggling [ex_todo]. *)
Lemma toggle_payload_flips_witness :
  get (data ex_todo) "completed" = Some (JBool false) /\
  toggle_payload ex_todo = {| title := "Buy milk"; notes := ""; completed := true |}.
Proof.
  split; [reflexivity|].
  exact (proj1 (toggle_payload_flips ex_todo eq_refl)).
Defined.

(** An instance of [encodeURIComponent_alphabet] at concrete inputs. *)
Lemma encodeURIComponent_alphabet_witness :
  In "%"%char (list_ascii_of_string (encodeURIComponent "a/b")) /\
  (uri_unreserved "%" = true \/ "%"%char = "%"%char).
Proof.
  assert (H : In "%"%char (list_ascii_of_string (encodeURIComponent "a/b")))
    by (vm_compute; right; left; reflexivity).
  exact (conj H (encodeURIComponent_alphabet "a/b" "%" H)).
Defined.

(** An instance of [encodeURIComponent_injective] at concrete inputs. *)
Lemma encodeURIComponent_injective_witness :
  encodeURIComponent "my list" = encodeURIComponent "my list" /\ "my list" = "my list".
Proof. split; [reflexivity | apply encodeURIComponent_injective; reflexivity]. Defined.

(** An instance of [encodeURIComponent_unreserved_id] at concrete inputs. *)
Lemma encodeURIComponent_unreserved_id_witness :
  forallb uri_unreserved (list_ascii_of_string "todos") = true /\
  encodeURIComponent "todos" = "todos".
Proof. split; [reflexivity | apply encodeURIComponent_unreserved_id; reflexivity]. Defined.

(** An instance of [createTodo_request] at concrete inputs. *)
Lemma createTodo_request_witness :
  fst (createTodo ex_config "tok" ex_draft ex_fetch_ok) =
  [{| url := "https://reqres.in/app/collections/todos/records"; req_method := "POST";
      headers := [("Accept", "application/json"); ("Content-Type", "application/json");
                  ("Authorization", "Bearer tok")];
      req_body := Some (JsonBody (JObj [("data", payload_to_json ex_draft)])) |}].
Proof. apply createTodo_request; reflexivity. Defined.

(** An instance of [updateTodo_request] at concrete inputs. *)
Lemma updateTodo_request_witness :
  fst (updateTodo ex_config "tok" "rec 1" ex_draft ex_fetch_ok) =
  [{| url := "https://reqres.in/app/collections/todos/records/rec%201"; req_method := "PUT";
      headers := [("Accept", "application/json"); ("Content-Type", "application/json");
                  ("Authorization", "Bearer tok")];
      req_body := Some (JsonBody (JObj [("data", payload_to_json ex_draft)])) |}].
Proof. apply updateTodo_request; reflexivity. Defined.

(** An instance of [deleteTodo_request] at concrete inputs. *)
Lemma deleteTodo_request_witness :
  fst (deleteTodo ex_config "tok" "rec-1" ex_fetch_ok) =
  [{| url := "https://reqres.in/app/collections/todos/records/rec-1"; req_method := "DELETE";
      headers := [("Accept", "application/json"); ("Authorization", "Bearer tok")];
      req_body := None |}].
Proof. apply deleteTodo_request; reflexivity. Defined.

(** An instance of [fetchTodos_request] at concrete inputs. *)
Lemma fetchTodos_request_witness :
  1 <= fetch_limit (Some 500) <= 100 /\ 1 <= fetch_page None /\
  fst (fetchTodos ex_config "tok" None (Some 500) (Some "asc") ex_fetch_ok) =
  [{| url := "https://reqres.in/app/collections/todos/records?order=asc&limit=100&page=1";
      req_method := "GET";
      headers := [("Accept", "application/json"); ("Authorization", "Bearer tok")];
      req_body := None |}].
Proof. apply fetchTodos_request; reflexivity. Defined.

(** An instance of [crud_refused_unsent] at concrete inputs. *)
Lemma crud_refused_unsent_witness :
  deleteTodo {| baseUrl := ""; projectId := None; publicProjectKey := ""; manageProjectKey := "";
                collectionSlug := "" |} "tok" "rec-1" ex_fetch_ok
    = throw_unsent "Task register is not configured." /\
  createTodo ex_config "" ex_draft ex_fetch_ok = throw_unsent "Access is required for this action.".
Proof.
  split.
  - exact (proj2 (proj2 (proj2 (proj1 (crud_refused_unsent
      {| baseUrl := ""; projectId := None; publicProjectKey := ""; manageProjectKey := "";
         collectionSlug := "" |} "tok" "rec-1" ex_draft None None None ex_fetch_ok) eq_refl)))).
  - exact (proj1 (proj2 (proj2 (crud_refused_unsent ex_config "tok" "rec-1" ex_draft
      None None None ex_fetch_ok) eq_refl))).
Defined.

(** An instance of [fetchTodos_fallback_meta] at concrete inputs. *)
Lemma fetchTodos_fallback_meta_witness :
  exists k,
    fetchTodos_result 1 2 (JObj [("data", JArr [JNull; JNull; JNull])]) =
      {| pt_data := JArr [JNull; JNull; JNull];
         pt_meta := {| mo_page := JNum 1; mo_limit := JNum 2;
                       mo_total := Some (JNum (Z.of_nat (length [JNull; JNull; JNull])));
                       mo_pages := Some (JNum k) |} |} /\
    1 <= k /\ Z.of_nat (length [JNull; JNull; JNull]) <= k * 2 /\
    (k - 1) * 2 < Z.max 1 (Z.of_nat (length [JNull; JNull; JNull])).
Proof.
  apply fetchTodos_fallback_meta; [lia | reflexivity | left; reflexivity].
Defined.

(** An instance of [requestMagicLink_request] at concrete inputs. *)
Lemma requestMagicLink_request_witness :
  fst (requestMagicLink ex_config "a@b.com" ex_fetch_ok) =
  [{| url := "https://reqres.in/api/app-users/login"; req_method := "POST";
      headers := [("Accept", "application/json"); ("Content-Type", "application/json");
                  ("x-api-key", "pk")];
      req_body := Some (JsonBody (JObj [("email", JStr "a@b.com"); ("project_id", JNum 7)])) |}].
Proof.
  apply (proj2 (proj2 (requestMagicLink_request ex_config "a@b.com" ex_fetch_ok)) 7);
    [reflexivity | lia | reflexivity].
Defined.

(** An instance of [magicLink_sent_default] at concrete inputs. *)
Lemma magicLink_sent_default_witness :
  sent (magic_result (JObj [("token", JStr "t")])) = true /\
  ml_token (magic_result (JObj [("token", JStr "t")])) = Some (JStr "t").
Proof.
  split; [reflexivity|].
  exact (proj1 (proj2 (magicLink_sent_default (JObj [("token", JStr "t")])) (or_introl eq_refl))).
Defined.

(** An instance of [verifyMagicToken_request] at concrete inputs. *)
Lemma verifyMagicToken_request_witness :
  fst (verifyMagicToken ex_config "code" ex_fetch_ok) =
  [{| url := "https://reqres.in/api/app-users/verify"; req_method := "POST";
      headers := [("Accept", "application/json"); ("Content-Type", "application/json");
                  ("x-api-key", "mk")];
      req_body := Some (JsonBody (JObj [("token", JStr "code"); ("project_id", JNum 7)])) |}].
Proof.
  apply (proj2 (proj2 (verifyMagicToken_request ex_config "code" ex_fetch_ok)) 7);
    [reflexivity | lia | reflexivity].
Defined.

(** An instance of [verifyMagicToken_missing_data] at concrete inputs. *)
Lemma verifyMagicToken_missing_data_witness :
  snd (verifyMagicToken ex_config "code"
         (fun _ => {| status := 204; statusText := "No Content"; text := REmpty |})) = TypeError.
Proof.
  apply (verifyMagicToken_missing_data ex_config "code" 7);
    [reflexivity | lia | reflexivity | reflexivity | left; reflexivity].
Defined.

(** An instance of [fetchAppUserTotal_key] at concrete inputs. *)
Lemma fetchAppUserTotal_key_witness :
  fst (fetchAppUserTotal (fun _ => 0)
         {| baseUrl := "https://reqres.in"; projectId := Some 7; publicProjectKey := "";
            manageProjectKey := "mk"; collectionSlug := "todos" |} ex_fetch_ok) =
  [{| url := "https://reqres.in/api/projects/7/app-users/total"; req_method := "GET";
      headers := [("Accept", "application/json"); ("x-api-key", "mk")]; req_body := None |}].
Proof.
  apply (proj2 (proj2 (fetchAppUserTotal_key (fun _ => 0)
    {| baseUrl := "https://reqres.in"; projectId := Some 7; publicProjectKey := "";
       manageProjectKey := "mk"; collectionSlug := "todos" |} ex_fetch_ok)) 7);
    [reflexivity | lia | right; reflexivity].
Defined.

(** An instance of [handleCreateTodo_trimmed] at concrete inputs. *)
Lemma handleCreateTodo_trimmed_witness :
  trim (title ex_draft) = "Buy milk" /\
  exists res,
    handleCreateTodo_call ex_config "tok" ex_draft ex_fetch_ok =
    Called [{| url := api_base ex_config ++ handleCreateTodo_logged_path ex_config;
               req_method := "POST";
               headers := [("Accept", "application/json");
                           ("Content-Type", "application/json");
                           ("Authorization", "Bearer " ++ "tok")];
               req_body := Some (JsonBody (JObj [("data", JObj
                             [("title", JStr (trim (title ex_draft)));
                              ("notes", JStr (trim (notes ex_draft)));
                              ("completed", JBool (completed ex_draft))])])) |}] res /\
    trim (trim (title ex_draft)) = trim (title ex_draft) /\
    trim (trim (notes ex_draft)) = trim (notes ex_draft).
Proof.
  split; [vm_compute; reflexivity|].
  apply (proj2 (handleCreateTodo_trimmed ex_config "tok" ex_draft ex_fetch_ok));
    [vm_compute; discriminate | reflexivity | reflexivity].
Defined.

(** An instance of [handleUpdateTodo_trimmed] at concrete inputs. *)
Lemma handleUpdateTodo_trimmed_witness :
  exists res,
    handleUpdateTodo_call ex_config "tok" [("rec-1", ex_draft)] "rec-1" ex_fetch_ok =
    Called [{| url := api_base ex_config ++ "/app/collections/"
                      ++ encodeURIComponent (collectionSlug ex_config)
                      ++ "/records/" ++ encodeURIComponent "rec-1";
               req_method := "PUT";
               headers := [("Accept", "application/json");
                           ("Content-Type", "application/json");
                           ("Authorization", "Bearer " ++ "tok")];
               req_body := Some (JsonBody (JObj [("data", JObj
                             [("title", JStr (trim (title ex_draft)));
                              ("notes", JStr (trim (notes ex_draft)));
                              ("completed", JBool (completed ex_draft))])])) |}] res.
Proof.
  apply (proj2 (proj2 (handleUpdateTodo_trimmed ex_config "tok" [("rec-1", ex_draft)] "rec-1"
    ex_fetch_ok)) ex_draft); [reflexivity | vm_compute; discriminate | reflexivity | reflexivity].
Defined.


(** An instance of [handleRequestLink_blank_email] at concrete inputs. *)
Lemma handleRequestLink_blank_email_witness :
  exists pid res, projectId ex_config = Some pid /\
    handleRequestLink_call ex_config "   " ex_fetch_ok =
    Called [{| url := api_base ex_config ++ "/api/app-users/login";
               req_method := "POST";
               headers := [("Accept", "application/json");
                           ("Content-Type", "application/json");
                           ("x-api-key", publicProjectKey ex_config)];
               req_body := Some (JsonBody (JObj [("email", JStr (trim "   "));
                                                 ("project_id", JNum pid)])) |}] res.
Proof. apply (proj2 (handleRequestLink_blank_email ex_config "   " ex_fetch_ok)); reflexivity. Defined.


(** An instance of [ensureActiveSession_without_stored_token] at concrete inputs. *)
Lemma ensureActiveSession_without_stored_token_witness :
  ensureActiveSession iso_getTime "https://reqres.in" ex_config NoStorage 0
    (Some (ex_session "2099-01-01T00:00:00.000Z")) "Access required. Request access."
  = (GuardFail "Access not active. Request access.", NoStorage).
Proof. apply (ensureActiveSession_without_stored_token _ _ _ NoStorage); left; reflexivity. Defined.

(** An instance of [envConfig_trimmed_fields] at concrete inputs. *)
Lemma envConfig_trimmed_fields_witness :
  collectionSlug (envConfig (fun _ => Some 7) ex_env) = "" /\
  In "Set a collection slug" (configWarnings (envConfig (fun _ => Some 7) ex_env)).
Proof.
  apply (proj1 (proj2 (proj2 (envConfig_trimmed_fields (fun _ => Some 7) ex_env))) "   ");
    [reflexivity | discriminate | vm_compute; reflexivity].
Defined.
